(** * thyming: the [Timer] stopwatch of [src/thyming/timer.py]

    A shallow embedding of the [Timer] class and its two error classes,
    followed by the properties the specification states about them.

    Python objects live in a store: a [Timer] is an object with an identity
    (a location), and so is the list its [recorded_times] field refers to.
    Methods are computations over the store that return a value, raise an
    exception, or get stuck on a reference that names no object (which no
    Python program can produce; it only makes the store lookups total).

    The environment is made of
    - the monotonic clock [perf_counter()] and the wall clock [dt.now()]:
      the n-th reading of each is given by an oracle, and the store counts
      the readings made so far;
    - [str.format], applied to the timer's message template and one float:
      it returns the formatted string or raises (a template such as
      ["{:d}"] rejects a float);
    - the logger, which follows its interface contract: a callable that
      takes one line and returns nothing. It is known by a name; every
      invocation is recorded, in order, with the line it was given, and the
      store knows which callables have the truth value false. A callable
      that raises, or that reaches back into the timer, is outside this
      model. *)

From Stdlib Require Import String Ascii List PrimFloat Lia.
From stdpp Require Import base gmap strings list.

Local Open Scope string_scope.
Local Open Scope list_scope.

(** ** Locations, values, exceptions *)

Definition loc := positive.

(** [datetime.datetime], naive (no tzinfo), as [dt.now()] returns it. *)
Record datetime := mkdatetime {
  year : nat; month : nat; day : nat;
  hour : nat; minute : nat; second : nat; microsecond : nat }.

Definition digit (n : nat) : ascii := ascii_of_nat (48 + n mod 10).

(** ["%0<width>d" % n] for [n < 10 ^ width]. *)
Fixpoint zero_padded (width n : nat) : string :=
  match width with
  | 0 => ""
  | S w => zero_padded w (n / 10) +:+ String (digit n) ""
  end.

(** [d.isoformat('T', 'seconds')]: [YYYY-MM-DDTHH:MM:SS]. *)
Definition isoformat_seconds (d : datetime) : string :=
  zero_padded 4 (year d) +:+ "-" +:+ zero_padded 2 (month d) +:+ "-" +:+
  zero_padded 2 (day d) +:+ "T" +:+ zero_padded 2 (hour d) +:+ ":" +:+
  zero_padded 2 (minute d) +:+ ":" +:+ zero_padded 2 (second d).

(** [d.isoformat()]: the fraction is printed only when it is not zero. *)
Definition isoformat (d : datetime) : string :=
  match microsecond d with
  | 0 => isoformat_seconds d
  | S _ => isoformat_seconds d +:+ "." +:+ zero_padded 6 (microsecond d)
  end.

(** [Action = Literal["measure", "stop"]]. *)
Inductive Action := ActMeasure | ActStop.

Definition action_text (a : Action) : string :=
  match a with ActMeasure => "measure" | ActStop => "stop" end.

(** [class DefaultMessage(Enum)]. *)
Inductive DefaultMessage := START | MEASURE | END.

(** [TimerMessage = Union[str, None, DefaultMessage]]. *)
Inductive TimerMessage :=
| MsgStr (s : string)
| MsgNone
| MsgDefault (d : DefaultMessage).

(** [bool(msg)]: [None] and the empty string are false, members of a plain
    [Enum] are true whatever their value. *)
Definition truthy_msg (m : TimerMessage) : bool :=
  match m with
  | MsgStr "" => false
  | MsgStr _ => true
  | MsgNone => false
  | MsgDefault _ => true
  end.

(** The exceptions of the module, with the fields their dataclass
    constructors take; [FormatError] for what [str.format] raises on a
    template it cannot apply to a float (a [ValueError], [IndexError] or
    [KeyError], with its text); and [ClientError] for whatever the code of
    a [with] block raises. *)
Inductive exn :=
| TimerAlreadyRunningError (timer_name : string) (timestamp : datetime)
| TimerNotRunningError (timer_name : string) (timestamp : datetime)
                       (action : Action)
| FormatError (what : string)
| ClientError (what : string).

(** The [message] field that [__post_init__] fills in. *)
Definition error_message (e : exn) : string :=
  match e with
  | TimerAlreadyRunningError timer_name timestamp =>
      "[" +:+ isoformat timestamp +:+ "] Tried to start " +:+
      timer_name +:+ " but it was already running."
  | TimerNotRunningError timer_name timestamp action =>
      "[" +:+ isoformat timestamp +:+ "] Tried to click `" +:+
      action_text action +:+ "` " +:+
      "on " +:+ timer_name +:+ " but it wasn't running."
  | FormatError what => what
  | ClientError what => what
  end.

Inductive value :=
| VNone
| VFloat (x : float)
| VTimer (self : loc)
| VList (l : loc).

(** [bool(v)] for the values a context manager's [__exit__] may return. *)
Definition truthy_value (v : value) : bool :=
  match v with VNone => false | _ => true end.

(** The [Timer] dataclass. [logger] names the sink the lines go to;
    [recorded_times] is a reference to a list object. *)
Record Timer := mkTimer {
  name : option string;
  message : string;
  logger : option string;
  start_time : option float;
  recorded_times : loc }.

Definition with_start_time (st : option float) (t : Timer) : Timer :=
  {| name := name t; message := message t; logger := logger t;
     start_time := st; recorded_times := recorded_times t |}.


(** ** The store *)

Record World := mkWorld {
  timers : gmap loc Timer;
  lists : gmap loc (list float);
  perf_reads : nat;
  wall_reads : nat;
  emitted : list (string * string);
  falsy_callables : gset string }.

Definition set_timers (f : gmap loc Timer -> gmap loc Timer) (w : World) :=
  {| timers := f (timers w); lists := lists w; perf_reads := perf_reads w;
     wall_reads := wall_reads w; emitted := emitted w;
     falsy_callables := falsy_callables w |}.

Definition set_lists (f : gmap loc (list float) -> gmap loc (list float))
    (w : World) :=
  {| timers := timers w; lists := f (lists w); perf_reads := perf_reads w;
     wall_reads := wall_reads w; emitted := emitted w;
     falsy_callables := falsy_callables w |}.

Definition tick_perf (w : World) :=
  {| timers := timers w; lists := lists w; perf_reads := S (perf_reads w);
     wall_reads := wall_reads w; emitted := emitted w;
     falsy_callables := falsy_callables w |}.

Definition tick_wall (w : World) :=
  {| timers := timers w; lists := lists w; perf_reads := perf_reads w;
     wall_reads := S (wall_reads w); emitted := emitted w;
     falsy_callables := falsy_callables w |}.

Definition emit (sink line : string) (w : World) :=
  {| timers := timers w; lists := lists w; perf_reads := perf_reads w;
     wall_reads := wall_reads w; emitted := emitted w ++ [(sink, line)];
     falsy_callables := falsy_callables w |}.

(** ** Computations *)

Inductive result (A : Type) :=
| Returns (a : A)
| Raises (e : exn)
| Stuck.
Arguments Returns {A} a.
Arguments Raises {A} e.
Arguments Stuck {A}.

Definition M (A : Type) : Type := World -> result A * World.

Definition ret {A} (a : A) : M A := fun w => (Returns a, w).

Definition raise {A} (e : exn) : M A := fun w => (Raises e, w).

Definition stuck {A} : M A := fun w => (Stuck, w).

Definition bind {A B} (c : M A) (k : A -> M B) : M B :=
  fun w =>
    match c w with
    | (Returns a, w') => k a w'
    | (Raises e, w') => (Raises e, w')
    | (Stuck, w') => (Stuck, w')
    end.

Notation "x <- c ;; k" := (bind c (fun x => k))
  (at level 100, c at next level, right associativity).
Notation "c ;;; k" := (bind c (fun _ => k))
  (at level 100, right associativity).

Fixpoint for_each {A} (f : A -> M unit) (l : list A) : M unit :=
  match l with
  | [] => ret tt
  | x :: l' => f x ;;; for_each f l'
  end.

(** Attribute access [self.<field>] and the assignment
    [self.start_time = st]. *)
Definition read {A} (self : loc) (field : Timer -> A) : M A :=
  fun w =>
    match timers w !! self with
    | Some t => (Returns (field t), w)
    | None => (Stuck, w)
    end.

Definition write_start_time (self : loc) (st : option float) : M unit :=
  fun w =>
    match timers w !! self with
    | Some t => (Returns tt, set_timers <[self := with_start_time st t]> w)
    | None => (Stuck, w)
    end.

(** The list methods a holder of a list reference can call. *)
Definition list_append (l : loc) (x : float) : M unit :=
  fun w =>
    match lists w !! l with
    | Some xs => (Returns tt, set_lists <[l := xs ++ [x]]> w)
    | None => (Stuck, w)
    end.

Definition list_clear (l : loc) : M unit :=
  fun w =>
    match lists w !! l with
    | Some _ => (Returns tt, set_lists <[l := []]> w)
    | None => (Stuck, w)
    end.

(** [s.split("\n")]. *)
Definition newline : ascii := "010"%char.

Fixpoint split_newline (s : string) : list string :=
  match s with
  | EmptyString => [EmptyString]
  | String c s' =>
      if Ascii.eqb c newline then EmptyString :: split_newline s'
      else match split_newline s' with
           | [] => [String c EmptyString]
           | piece :: pieces => String c piece :: pieces
           end
  end.

Definition NL : string := String newline EmptyString.

(** [Timer.message]'s default. *)
Definition default_message : string := "Elapsed time: {:0.4f} seconds.".

(** [field(default=logging.info)]. *)
Definition default_logger : option string := Some "logging.info".

(** ** A concrete environment

    Clocks, a formatter and stores on which the properties below are
    evaluated: the monotonic clock advances by one second per reading, the
    wall clock by one second per reading from 2024-05-17T09:30:00, and the
    formatter returns the template as it is, except that it rejects the
    template ["{:d}"] as [str.format] does for a float. The callable named
    "mute" has the truth value false. *)

Fixpoint demo_perf (n : nat) : float :=
  match n with
  | 0 => 0%float
  | S k => (demo_perf k + 1)%float
  end.

Definition demo_now (n : nat) : datetime :=
  mkdatetime 2024 5 17 9 30 (n mod 60) 0.

Definition strict_message : string := "{:d}".

Definition demo_format (template : string) (x : float) : string + string :=
  if String.eqb template strict_message
  then inr "Unknown format code 'd' for object of type 'float'"
  else inl template.

Definition demo_falsy : gset string := {[ "mute" ]}.

Definition empty_world : World := mkWorld ∅ ∅ 0 0 [] demo_falsy.

(** A store with one stopped timer, named or not, with or without a
    logger, that has recorded nothing yet. *)
Definition demo_timer (nm : option string) (lg : option string) : Timer :=
  mkTimer nm default_message lg None 1%positive.

Definition demo_world (nm : option string) (lg : option string) : World :=
  mkWorld {[ 1%positive := demo_timer nm lg ]} {[ 1%positive := [] ]} 0 0 []
    demo_falsy.

(** The same store after [start()]: the timer has been running since the
    first reading of the monotonic clock. *)
Definition demo_running_timer (nm : option string) (lg : option string)
    : Timer :=
  mkTimer nm default_message lg (Some 0%float) 1%positive.

Definition demo_running_world (nm : option string) (lg : option string)
    : World :=
  mkWorld {[ 1%positive := demo_running_timer nm lg ]}
          {[ 1%positive := [] ]} 1 0 [] demo_falsy.

(** The running demo timer with the template that [str.format] rejects. *)
Definition demo_strict_timer (lg : option string) : Timer :=
  mkTimer None strict_message lg (Some 0%float) 1%positive.

Definition demo_strict_world (lg : option string) : World :=
  mkWorld {[ 1%positive := demo_strict_timer lg ]}
          {[ 1%positive := [] ]} 1 0 [] demo_falsy.

(** A store with two timers: the first is the stopped demo timer, the
    second is running and has recorded one sample in a list of its own. *)
Definition demo_two_timers : World :=
  mkWorld
    (<[ 2%positive :=
          mkTimer (Some "other") default_message None (Some 3%float)
            2%positive ]>
       {[ 1%positive := demo_timer None (Some "rec") ]})
    (<[ 2%positive := [5%float] ]> {[ 1%positive := [] ]}) 4 0 []
    demo_falsy.

Section TimerMethods.

(** The n-th reading of [perf_counter()] and of [dt.now()], and
    [template.format(x)]: the formatted string, or the text of the
    exception the call raises. *)
Variable perf_counter_at : nat -> float.
Variable now_at : nat -> datetime.
Variable format : string -> float -> string + string.

Definition perf_counter : M float :=
  fun w => (Returns (perf_counter_at (perf_reads w)), tick_perf w).

Definition now : M datetime :=
  fun w => (Returns (now_at (wall_reads w)), tick_wall w).

(** [self.logger(line)]; calling [None] cannot happen behind the guards
    of the callers. *)
Definition call_logger (self : loc) (line : string) : M unit :=
  lg <- read self logger ;;
  match lg with
  | Some sink => fun w => (Returns tt, emit sink line w)
  | None => stuck
  end.

(** [Timer(name, message, logger, start_time)]: [recorded_times] is not an
    argument ([init=False]) and starts as a new empty list. *)
Definition new_timer (nm : option string) (msg : string)
    (lg : option string) (st : option float) : M loc :=
  fun w =>
    let l := fresh (dom (lists w)) in
    let self := fresh (dom (timers w)) in
    (Returns self,
     set_timers <[self := mkTimer nm msg lg st l]>
       (set_lists <[l := []]> w)).

Definition _timestamp_to_msg (timestamp : DefaultMessage) : M string :=
  match timestamp with
  | START => d <- now ;; ret ("START: " +:+ isoformat_seconds d)
  | MEASURE => d <- now ;; ret ("MEASURED: " +:+ isoformat_seconds d)
  | END => d <- now ;; ret ("END: " +:+ isoformat_seconds d)
  end.

Definition log (self : loc) (msg : TimerMessage) : M value :=
  lg <- read self logger ;;
  match lg with
  | None => ret (VTimer self)
  | Some _ =>
      match msg with
      | MsgNone => ret (VTimer self)
      | MsgDefault d =>
          line <- _timestamp_to_msg d ;;
          call_logger self line ;;;
          ret (VTimer self)
      | MsgStr s =>
          for_each (call_logger self) (split_newline s) ;;;
          ret (VTimer self)
      end
  end.

Definition _timer_name (self : loc) : M string :=
  nm <- read self name ;;
  match nm with
  | Some (String c n) => ret ("Timer(name=" +:+ String c n +:+ ")")
  | _ => ret "Unnamed Timer"
  end.

Definition start (self : loc) (click_message : TimerMessage) : M value :=
  st <- read self start_time ;;
  match st with
  | Some _ =>
      nm <- _timer_name self ;;
      ts <- now ;;
      raise (TimerAlreadyRunningError nm ts)
  | None =>
      t0 <- perf_counter ;;
      write_start_time self (Some t0) ;;;
      (if truthy_msg click_message then
         lg <- read self logger ;;
         match lg with
         | Some _ => log self click_message ;;; ret tt
         | None => ret tt
         end
       else ret tt) ;;;
      ret (VTimer self)
  end.

(** After the two [isinstance] tests a message is a string or [None]. *)
Definition resolve_default (m : TimerMessage) : M (option string) :=
  match m with
  | MsgDefault d => s <- _timestamp_to_msg d ;; ret (Some s)
  | MsgStr s => ret (Some s)
  | MsgNone => ret None
  end.

Definition truthy_text (s : option string) : bool :=
  match s with
  | Some (String _ _) => true
  | _ => false
  end.

Definition text_of (s : option string) : string :=
  match s with Some s => s | None => "" end.

(** [template.format(x)] as a computation. *)
Definition str_format (template : string) (x : float) : M string :=
  match format template x with
  | inl formatted => ret formatted
  | inr what => raise (FormatError what)
  end.

(** [bool(f)] for a callable [f] or [None]. *)
Definition truthy_callable (f : option string) : M bool :=
  fun w =>
    match f with
    | Some callable =>
        (Returns (bool_decide (callable ∉ falsy_callables w)), w)
    | None => (Returns false, w)
    end.

Definition _get_logging_message (self : loc) (recorded_time : float)
    (msg_pre msg_post : TimerMessage) : M string :=
  pre <- resolve_default msg_pre ;;
  post <- resolve_default msg_post ;;
  msg <- (if truthy_text pre then ret (text_of pre +:+ NL)
          else
            nm <- read self name ;;
            if truthy_text nm then ret (text_of nm +:+ ":" +:+ NL)
            else ret "") ;;
  tpl <- read self message ;;
  body <- str_format tpl recorded_time ;;
  let msg := msg +:+ body in
  if truthy_text post then ret (msg +:+ NL +:+ text_of post)
  else ret msg.

Definition _click (self : loc) (stop_timer : bool)
    (msg_pre msg_post : TimerMessage) (action : Action) : M float :=
  st <- read self start_time ;;
  match st with
  | None =>
      nm <- _timer_name self ;;
      ts <- now ;;
      raise (TimerNotRunningError nm ts action)
  | Some t0 =>
      t1 <- perf_counter ;;
      let recorded_time := PrimFloat.sub t1 t0 in
      (if stop_timer then write_start_time self None else ret tt) ;;;
      l <- read self recorded_times ;;
      list_append l recorded_time ;;;
      lg <- read self logger ;;
      logs <- truthy_callable lg ;;
      (if logs then
         m <- _get_logging_message self recorded_time msg_pre msg_post ;;
         log self (MsgStr m) ;;; ret tt
       else ret tt) ;;;
      ret recorded_time
  end.

Definition stop (self : loc) (msg_pre msg_post : TimerMessage) : M value :=
  x <- _click self true msg_pre msg_post ActStop ;; ret (VFloat x).

Definition measure (self : loc) (msg_pre msg_post : TimerMessage)
    : M value :=
  x <- _click self false msg_pre msg_post ActMeasure ;; ret (VFloat x).

Definition times (self : loc) : M value :=
  l <- read self recorded_times ;; ret (VList l).

Definition __enter__ (self : loc) : M value :=
  start self MsgNone ;;; ret VNone.

(** The three arguments describe the exception of the block, if any; the
    method does not look at them. *)
Definition __exit__ (self : loc) (exc : option exn) : M value :=
  st <- read self start_time ;;
  match st with
  | Some _ => stop self MsgNone MsgNone ;;; ret VNone
  | None => ret VNone
  end.

Definition restart (self : loc) (msg_pre msg_post : TimerMessage)
    : M value :=
  stop self msg_pre msg_post ;;;
  start self MsgNone.

(** ** The methods in closed form

    What each method does to a store in which [self] is a timer [t] whose
    [recorded_times] refers to the list [xs]: the result and the store
    afterwards, written without the monad. The lemmas of the next part
    prove that the methods compute exactly these. *)

Definition emit_all (sink : string) (lines : list string) (w : World)
    : World :=
  fold_left (fun w' line => emit sink line w') lines w.

Definition marker_text (d : DefaultMessage) (ts : datetime) : string :=
  match d with
  | START => "START: " +:+ isoformat_seconds ts
  | MEASURE => "MEASURED: " +:+ isoformat_seconds ts
  | END => "END: " +:+ isoformat_seconds ts
  end.

Definition timer_name_of (t : Timer) : string :=
  match name t with
  | Some (String c n) => "Timer(name=" +:+ String c n +:+ ")"
  | _ => "Unnamed Timer"
  end.

Definition is_running (t : Timer) : bool :=
  match start_time t with Some _ => true | None => false end.

(** The text a message resolves to and the number of wall-clock readings
    that takes, when the wall clock has been read [n] times before. *)
Definition resolved (m : TimerMessage) (n : nat) : option string * nat :=
  match m with
  | MsgDefault d => (Some (marker_text d (now_at n)), 1)
  | MsgStr s => (Some s, 0)
  | MsgNone => (None, 0)
  end.

Definition leading_text (t : Timer) (pre : option string) : string :=
  if truthy_text pre then text_of pre +:+ NL
  else if truthy_text (name t) then text_of (name t) +:+ ":" +:+ NL
  else "".

Definition trailing_text (post : option string) : string :=
  if truthy_text post then NL +:+ text_of post else "".

Definition logging_message (t : Timer) (body : string)
    (msg_pre msg_post : TimerMessage) (n : nat) : string :=
  let pre := resolved msg_pre n in
  let post := resolved msg_post (snd pre + n) in
  leading_text t (fst pre) +:+ body +:+ trailing_text (fst post).

Definition wall_ticks (k : nat) (w : World) : World :=
  Nat.iter k tick_wall w.

(** The store after [self.log(msg)]. *)
Definition logged (t : Timer) (msg : TimerMessage) (w : World) : World :=
  match logger t with
  | None => w
  | Some sink =>
      match msg with
      | MsgNone => w
      | MsgDefault d =>
          emit sink (marker_text d (now_at (wall_reads w))) (tick_wall w)
      | MsgStr s => emit_all sink (split_newline s) w
      end
  end.

(** The store after a successful [self.start(click_message)]. *)
Definition started (self : loc) (t : Timer) (click_message : TimerMessage)
    (w : World) : World :=
  let t' := with_start_time (Some (perf_counter_at (perf_reads w))) t in
  let w' := set_timers <[self := t']> (tick_perf w) in
  if truthy_msg click_message then logged t' click_message w' else w'.

(** The sample a click records. *)
Definition sample (t0 : float) (w : World) : float :=
  PrimFloat.sub (perf_counter_at (perf_reads w)) t0.

(** The callable that the clicks of [t] log to: the logger, when there
    is one and it is true. *)
Definition click_sink (t : Timer) (w : World) : option string :=
  match logger t with
  | Some sink =>
      if bool_decide (sink ∉ falsy_callables w) then Some sink else None
  | None => None
  end.

(** How a click that has recorded the sample [x] ends: it returns the
    sample, unless it logs and the template cannot be formatted. *)
Definition click_result (t : Timer) (x : float) (w : World) : result float :=
  match click_sink t w with
  | Some _ =>
      match format (message t) x with
      | inl _ => Returns x
      | inr what => Raises (FormatError what)
      end
  | None => Returns x
  end.

(** The store after a click of a timer started at [t0], whichever way the
    click ends: the sample is recorded (and the timer stopped) before
    anything is formatted or logged. *)
Definition clicked (self : loc) (t : Timer) (xs : list float) (t0 : float)
    (stop_timer : bool) (msg_pre msg_post : TimerMessage) (w : World)
    : World :=
  let x := sample t0 w in
  let t' := if stop_timer then with_start_time None t else t in
  let w1 := tick_perf w in
  let w2 := if stop_timer then set_timers <[self := t']> w1 else w1 in
  let w3 := set_lists <[recorded_times t := xs ++ [x]]> w2 in
  match click_sink t w with
  | None => w3
  | Some sink =>
      let pre := resolved msg_pre (wall_reads w) in
      let post := resolved msg_post (snd pre + wall_reads w) in
      let w4 := wall_ticks (snd post + snd pre) w3 in
      match format (message t) x with
      | inl body =>
          emit_all sink
            (split_newline
               (logging_message t body msg_pre msg_post (wall_reads w)))
            w4
      | inr _ => w4
      end
  end.

(** A result of one type as a result of another. *)
Definition result_map {A B} (f : A -> B) (r : result A) : result B :=
  match r with
  | Returns a => Returns (f a)
  | Raises e => Raises e
  | Stuck => Stuck
  end.

(** ** The [with] statement and sequences of calls *)

(** How control leaves a block that raises nothing: by reaching its end, or
    by [return], [break] or [continue]. *)
Inductive exit_path := FallsThrough | LeavesEarly.

(** Leaving the block of [with self]: [__exit__] runs on every way out,
    and an exception of the block is raised again unless [__exit__] returns
    a true value. An exception of [__exit__] itself replaces it. *)
Definition leave (self : loc) (block : result exit_path * World)
    : result exit_path * World :=
  match block with
  | (Returns p, w2) =>
      match __exit__ self None w2 with
      | (Returns _, w3) => (Returns p, w3)
      | (Raises e', w3) => (Raises e', w3)
      | (Stuck, w3) => (Stuck, w3)
      end
  | (Raises e, w2) =>
      match __exit__ self (Some e) w2 with
      | (Returns r, w3) =>
          if truthy_value r then (Returns FallsThrough, w3)
          else (Raises e, w3)
      | (Raises e', w3) => (Raises e', w3)
      | (Stuck, w3) => (Stuck, w3)
      end
  | (Stuck, w2) => (Stuck, w2)
  end.

(** [with self as target: body]: the target is bound to what [__enter__]
    returns; the block is not entered when [__enter__] raises. *)
Definition with_timer (self : loc) (body : value -> M exit_path)
    : M exit_path :=
  fun w =>
    match __enter__ self w with
    | (Returns target, w1) => leave self (body target w1)
    | (Raises e, w1) => (Raises e, w1)
    | (Stuck, w1) => (Stuck, w1)
    end.



Definition block_that_stops (self : loc) (target : value) : M exit_path :=
  stop self MsgNone MsgNone ;;; ret LeavesEarly.


Inductive op :=
| OpStart (click_message : TimerMessage)
| OpMeasure (msg_pre msg_post : TimerMessage)
| OpStop (msg_pre msg_post : TimerMessage)
| OpRestart (msg_pre msg_post : TimerMessage)
| OpLog (msg : TimerMessage)
| OpTimes
| OpEnter
| OpExit (exc : option exn).

Definition run_op (self : loc) (o : op) : M value :=
  match o with
  | OpStart m => start self m
  | OpMeasure pre post => measure self pre post
  | OpStop pre post => stop self pre post
  | OpRestart pre post => restart self pre post
  | OpLog m => log self m
  | OpTimes => times self
  | OpEnter => __enter__ self
  | OpExit exc => __exit__ self exc
  end.

(** A caller that makes the calls in turn, catching what each raises. *)
Fixpoint run_ops (self : loc) (os : list op) (w : World)
    : list (result value) * World :=
  match os with
  | [] => ([], w)
  | o :: os' =>
      let (r, w1) := run_op self o w in
      let (rs, w2) := run_ops self os' w1 in
      (r :: rs, w2)
  end.

(** The timer object and the contents of its list of samples. *)
Definition timer_at (self : loc) (w : World) : option Timer :=
  timers w !! self.

Definition samples (self : loc) (w : World) : option (list float) :=
  match timers w !! self with
  | Some t => lists w !! recorded_times t
  | None => None
  end.

(** [self] is a timer [t] whose samples are the list [xs]. *)
Definition holds (w : World) (self : loc) (t : Timer) (xs : list float)
    : Prop :=
  timers w !! self = Some t /\ lists w !! recorded_times t = Some xs.

Definition running (self : loc) (w : World) : bool :=
  match timers w !! self with
  | Some t => is_running t
  | None => false
  end.

(** The successful [measure] and [stop] calls an operation makes: its own,
    or the [self.stop(...)] inside [restart] and [__exit__]. *)
Definition clicks_made (o : op) (was_running : bool) (r : result value)
    : nat :=
  match o, r with
  | (OpMeasure _ _ | OpStop _ _ | OpRestart _ _), Returns _ => 1
  | OpExit _, Returns _ => if was_running then 1 else 0
  | _, _ => 0
  end.

Fixpoint clicks (self : loc) (os : list op) (w : World) : nat :=
  match os with
  | [] => 0
  | o :: os' =>
      let (r, w1) := run_op self o w in
      clicks_made o (running self w) r + clicks self os' w1
  end.

(** The clicks that pass the running guard, whichever way they end: a
    [measure], [stop], [restart] or scoped exit on a running timer. *)
Definition guard_passes (o : op) (was_running : bool) : nat :=
  match o with
  | OpMeasure _ _ | OpStop _ _ | OpRestart _ _ | OpExit _ =>
      if was_running then 1 else 0
  | _ => 0
  end.

Fixpoint clicks_passed (self : loc) (os : list op) (w : World) : nat :=
  match os with
  | [] => 0
  | o :: os' =>
      guard_passes o (running self w) +
      clicks_passed self os' (snd (run_op self o w))
  end.

(** The errors of the guards, and the error of the formatter. *)
Definition is_guard_error (r : result value) : bool :=
  match r with
  | Raises (TimerAlreadyRunningError _ _) => true
  | Raises (TimerNotRunningError _ _ _) => true
  | _ => false
  end.

Definition is_format_error (r : result value) : bool :=
  match r with
  | Raises (FormatError _) => true
  | _ => false
  end.

(** [run_op] in closed form, for a timer [t] with samples [xs]. *)
Definition not_running (t : Timer) (action : Action) (w : World)
    : result value * World :=
  (Raises (TimerNotRunningError (timer_name_of t) (now_at (wall_reads w))
             action), tick_wall w).

Definition already_running (t : Timer) (w : World) : result value * World :=
  (Raises (TimerAlreadyRunningError (timer_name_of t)
             (now_at (wall_reads w))), tick_wall w).

Definition outcome (self : loc) (t : Timer) (xs : list float) (o : op)
    (w : World) : result value * World :=
  match o with
  | OpStart m =>
      match start_time t with
      | Some _ => already_running t w
      | None => (Returns (VTimer self), started self t m w)
      end
  | OpMeasure pre post =>
      match start_time t with
      | Some t0 =>
          (result_map VFloat (click_result t (sample t0 w) w),
           clicked self t xs t0 false pre post w)
      | None => not_running t ActMeasure w
      end
  | OpStop pre post =>
      match start_time t with
      | Some t0 =>
          (result_map VFloat (click_result t (sample t0 w) w),
           clicked self t xs t0 true pre post w)
      | None => not_running t ActStop w
      end
  | OpRestart pre post =>
      match start_time t with
      | Some t0 =>
          match click_result t (sample t0 w) w with
          | Returns _ =>
              (Returns (VTimer self),
               started self (with_start_time None t) MsgNone
                 (clicked self t xs t0 true pre post w))
          | Raises e => (Raises e, clicked self t xs t0 true pre post w)
          | Stuck => (Stuck, clicked self t xs t0 true pre post w)
          end
      | None => not_running t ActStop w
      end
  | OpLog m => (Returns (VTimer self), logged t m w)
  | OpTimes => (Returns (VList (recorded_times t)), w)
  | OpEnter =>
      match start_time t with
      | Some _ => already_running t w
      | None => (Returns VNone, started self t MsgNone w)
      end
  | OpExit _ =>
      match start_time t with
      | Some t0 =>
          (result_map (fun _ => VNone) (click_result t (sample t0 w) w),
           clicked self t xs t0 true MsgNone MsgNone w)
      | None => (Returns VNone, w)
      end
  end.

(** ** The specification's state machine

    Section 4.1 of the specification, in its own words: two states, the
    transitions of each operation, and when an operation fails. It is
    compared with the code below. *)

Inductive State := RUNNING | STOPPED.

Definition spec_fails (o : op) (s : State) : bool :=
  match o, s with
  | (OpStart _ | OpEnter), RUNNING => true
  | (OpMeasure _ _ | OpStop _ _ | OpRestart _ _), STOPPED => true
  | _, _ => false
  end.

Definition spec_step (o : op) (s : State) : State :=
  match o, s with
  | OpStart _, STOPPED => RUNNING
  | OpStart _, RUNNING => RUNNING
  | OpMeasure _ _, s => s
  | OpStop _ _, RUNNING => STOPPED
  | OpStop _ _, STOPPED => STOPPED
  | OpRestart _ _, RUNNING => RUNNING
  | OpRestart _ _, STOPPED => STOPPED
  | OpLog _, s => s
  | OpTimes, s => s
  | OpEnter, STOPPED => RUNNING
  | OpEnter, RUNNING => RUNNING
  | OpExit _, RUNNING => STOPPED
  | OpExit _, STOPPED => STOPPED
  end.

Definition spec_run (os : list op) (s : State) : State :=
  fold_left (fun s' o => spec_step o s') os s.

(** The state the code is in: the abstraction the first invariant of
    section 3 describes. *)
Definition state_of (t : Timer) : State :=
  match start_time t with
  | None => STOPPED
  | Some _ => RUNNING
  end.


(** The text of [NotRunningError] as section 7 of the specification words
    it, with the action between single quotes. *)
Definition spec_not_running_message (timestamp action timer_name : string)
    : string :=
  "[" +:+ timestamp +:+ "] Tried to click '" +:+ action +:+ "' on " +:+
  timer_name +:+ " but it wasn't running.".

(** The lines of a click: what goes before the body and what goes after
    it, given the wall-clock reading a default message would show. *)
Definition leading_lines (t : Timer) (msg_pre : TimerMessage)
    (ts : datetime) : list string :=
  match msg_pre with
  | MsgDefault d => [marker_text d ts]
  | MsgStr (String c s) => split_newline (String c s)
  | MsgStr EmptyString | MsgNone =>
      match name t with
      | Some (String c n) => split_newline (String c n +:+ ":")
      | _ => []
      end
  end.

Definition trailing_lines (msg_post : TimerMessage) (ts : datetime)
    : list string :=
  match msg_post with
  | MsgDefault d => [marker_text d ts]
  | MsgStr (String c s) => split_newline (String c s)
  | MsgStr EmptyString | MsgNone => []
  end.

Fixpoint newline_free (s : string) : bool :=
  match s with
  | EmptyString => true
  | String c s' => negb (Ascii.eqb c newline) && newline_free s'
  end.

(** Every field of the timer, and the contents of the list its
    [recorded_times] refers to, are in [w'] what they were in [w]. *)
Definition unchanged (self : loc) (w w' : World) : Prop :=
  timer_at self w' = timer_at self w /\ samples self w' = samples self w.

(** ** Further notions, for the properties beyond the specification's *)

(** ["\n".join(lines)]. *)
Fixpoint join_newline (lines : list string) : string :=
  match lines with
  | [] => ""
  | line :: rest =>
      match rest with
      | [] => line
      | _ :: _ => line +:+ NL +:+ join_newline rest
      end
  end.

(** [s.count("\n")]. *)
Fixpoint count_newlines (s : string) : nat :=
  match s with
  | EmptyString => 0
  | String c s' =>
      (if Ascii.eqb c newline then 1 else 0) + count_newlines s'
  end.

(** Every timer but [self] and every list but [l] is in [w'] what it was
    in [w]. *)
Definition others_untouched (self l : loc) (w w' : World) : Prop :=
  (forall other, other <> self -> timers w' !! other = timers w !! other) /\
  (forall l', l' <> l -> lists w' !! l' = lists w !! l').



(** * Properties *)

(** ** Strings *)

Lemma append_assoc (s1 s2 s3 : string) :
  (s1 +:+ s2) +:+ s3 = s1 +:+ s2 +:+ s3.
Proof.
  induction s1 as [|c s1 IH]; [done|].
  change (String c ((s1 +:+ s2) +:+ s3) = String c (s1 +:+ s2 +:+ s3)).
  by rewrite IH.
Qed.

Lemma append_nil_r (s : string) : s +:+ "" = s.
Proof.
  induction s as [|c s IH]; [done|].
  change (String c (s +:+ "") = String c s). by rewrite IH.
Qed.

(** ** Frame facts: what logging and clock readings leave alone *)

Lemma emit_all_frame sink lines w :
  timers (emit_all sink lines w) = timers w /\
  lists (emit_all sink lines w) = lists w /\
  perf_reads (emit_all sink lines w) = perf_reads w /\
  wall_reads (emit_all sink lines w) = wall_reads w /\
  emitted (emit_all sink lines w) = emitted w ++ map (pair sink) lines.
Proof.
  revert w. induction lines as [|line lines IH]; intros w.
  - simpl. rewrite app_nil_r. done.
  - unfold emit_all in *. simpl fold_left.
    destruct (IH (emit sink line w)) as (-> & -> & -> & -> & ->).
    simpl. rewrite <- app_assoc. done.
Qed.

Lemma wall_ticks_frame k w :
  timers (wall_ticks k w) = timers w /\
  lists (wall_ticks k w) = lists w /\
  perf_reads (wall_ticks k w) = perf_reads w /\
  wall_reads (wall_ticks k w) = k + wall_reads w /\
  emitted (wall_ticks k w) = emitted w.
Proof.
  induction k as [|k IH]; [done|].
  unfold wall_ticks in *. simpl Nat.iter.
  destruct IH as (IH1 & IH2 & IH3 & IH4 & IH5). simpl.
  rewrite IH1, IH2, IH3, IH4, IH5. done.
Qed.

Lemma logged_frame t msg w :
  timers (logged t msg w) = timers w /\
  lists (logged t msg w) = lists w /\
  perf_reads (logged t msg w) = perf_reads w.
Proof.
  unfold logged. destruct (logger t) as [sink|]; [|done].
  destruct msg as [s| |d]; try done.
  destruct (emit_all_frame sink (split_newline s) w) as (-> & -> & -> & _).
  done.
Qed.

(** ** The monad, one step at a time *)

Lemma bind_returns {A B} (c : M A) (k : A -> M B) w a w' :
  c w = (Returns a, w') -> bind c k w = k a w'.
Proof. intros H. unfold bind. by rewrite H. Qed.

Lemma perf_counter_reading w :
  perf_counter w = (Returns (perf_counter_at (perf_reads w)), tick_perf w).
Proof. reflexivity. Qed.

Lemma now_reading w :
  now w = (Returns (now_at (wall_reads w)), tick_wall w).
Proof. reflexivity. Qed.

Ltac step H := rewrite (bind_returns _ _ _ _ _ H).

Lemma read_timer {A} self (field : Timer -> A) w t :
  timers w !! self = Some t -> read self field w = (Returns (field t), w).
Proof. intros H. unfold read. by rewrite H. Qed.

Lemma write_start_time_timer self st w t :
  timers w !! self = Some t ->
  write_start_time self st w =
  (Returns tt, set_timers <[self := with_start_time st t]> w).
Proof. intros H. unfold write_start_time. by rewrite H. Qed.

Lemma _timer_name_timer self w t :
  timers w !! self = Some t ->
  _timer_name self w = (Returns (timer_name_of t), w).
Proof.
  intros H. unfold _timer_name, timer_name_of.
  rewrite (bind_returns _ _ _ _ _ (read_timer self name w t H)).
  by destruct (name t) as [[|c n]|].
Qed.

Lemma _timestamp_to_msg_now d w :
  _timestamp_to_msg d w =
  (Returns (marker_text d (now_at (wall_reads w))), tick_wall w).
Proof. by destruct d. Qed.

Lemma call_logger_timer self line w t sink :
  timers w !! self = Some t -> logger t = Some sink ->
  call_logger self line w = (Returns tt, emit sink line w).
Proof.
  intros H Hlg. unfold call_logger.
  rewrite (bind_returns _ _ _ _ _ (read_timer self logger w t H)).
  by rewrite Hlg.
Qed.

Lemma for_each_call_logger self lines w t sink :
  timers w !! self = Some t -> logger t = Some sink ->
  for_each (call_logger self) lines w = (Returns tt, emit_all sink lines w).
Proof.
  intros H Hlg. revert w H.
  induction lines as [|line lines IH]; intros w H; [done|].
  simpl for_each.
  rewrite (bind_returns _ _ _ _ _ (call_logger_timer self line w t sink H Hlg)).
  by rewrite IH.
Qed.

(** ** The methods compute their closed forms *)

Lemma log_timer self msg w t :
  timers w !! self = Some t ->
  log self msg w = (Returns (VTimer self), logged t msg w).
Proof.
  intros H. unfold log, logged.
  rewrite (bind_returns _ _ _ _ _ (read_timer self logger w t H)).
  destruct (logger t) as [sink|] eqn:Hlg; [|done].
  destruct msg as [s| |d]; [|done|].
  - by rewrite (bind_returns _ _ _ _ _
                  (for_each_call_logger self _ w t sink H Hlg)).
  - rewrite (bind_returns _ _ _ _ _ (_timestamp_to_msg_now d w)).
    by rewrite (bind_returns _ _ _ _ _
                  (call_logger_timer self _ (tick_wall w) t sink H Hlg)).
Qed.

Lemma start_timer self click_message w t :
  timers w !! self = Some t ->
  start self click_message w =
  match start_time t with
  | Some _ =>
      (Raises (TimerAlreadyRunningError (timer_name_of t)
                 (now_at (wall_reads w))), tick_wall w)
  | None => (Returns (VTimer self), started self t click_message w)
  end.
Proof.
  intros H. unfold start, started.
  rewrite (bind_returns _ _ _ _ _ (read_timer self start_time w t H)).
  destruct (start_time t) as [t0|] eqn:Hst.
  - by rewrite (bind_returns _ _ _ _ _ (_timer_name_timer self w t H)).
  - step (perf_counter_reading w).
    assert (H1 : timers (tick_perf w) !! self = Some t) by done.
    rewrite (bind_returns _ _ _ _ _
               (write_start_time_timer self _ (tick_perf w) t H1)).
    set (t' := with_start_time _ t).
    set (w' := set_timers _ _).
    assert (H' : timers w' !! self = Some t').
    { subst w'. simpl. apply lookup_insert_eq. }
    destruct (truthy_msg click_message); [|done].
    unfold bind at 1.
    step (read_timer self logger w' t' H').
    unfold logged. destruct (logger t') as [sink|] eqn:Hlg; [|done].
    rewrite (bind_returns _ _ _ _ _ (log_timer self click_message w' t' H')).
    unfold logged. rewrite Hlg. done.
Qed.

Lemma resolve_default_resolved m w :
  resolve_default m w =
  (Returns (fst (resolved m (wall_reads w))),
   wall_ticks (snd (resolved m (wall_reads w))) w).
Proof.
  destruct m as [s| |d]; try done.
  unfold resolve_default. by step (_timestamp_to_msg_now d w).
Qed.

Lemma wall_ticks_add a b w :
  wall_ticks (b + a) w = wall_ticks b (wall_ticks a w).
Proof. unfold wall_ticks. apply Nat.iter_add. Qed.

Lemma _get_logging_message_timer self x msg_pre msg_post w t :
  timers w !! self = Some t ->
  _get_logging_message self x msg_pre msg_post w =
  (match format (message t) x with
   | inl body =>
       Returns (logging_message t body msg_pre msg_post (wall_reads w))
   | inr what => Raises (FormatError what)
   end,
   wall_ticks (snd (resolved msg_post
                      (snd (resolved msg_pre (wall_reads w)) + wall_reads w))
               + snd (resolved msg_pre (wall_reads w))) w).
Proof.
  intros H. unfold _get_logging_message, logging_message.
  step (resolve_default_resolved msg_pre w).
  set (pre := resolved msg_pre (wall_reads w)).
  set (wa := wall_ticks (snd pre) w).
  destruct (wall_ticks_frame (snd pre) w) as (Ht & _ & _ & Hw & _).
  fold wa in Ht, Hw.
  step (resolve_default_resolved msg_post wa).
  rewrite Hw.
  set (post := resolved msg_post (snd pre + wall_reads w)).
  rewrite wall_ticks_add. fold wa.
  set (wb := wall_ticks (snd post) wa).
  assert (Hb : timers wb !! self = Some t).
  { subst wb. destruct (wall_ticks_frame (snd post) wa) as (-> & _).
    by rewrite Ht. }
  assert (Hbody : forall lead : string,
    (tpl <- read self message ;;
     body <- str_format tpl x ;;
     (if truthy_text (fst post)
      then ret ((lead +:+ body) +:+ NL +:+ text_of (fst post))
      else ret (lead +:+ body))) wb =
    (match format (message t) x with
     | inl body =>
         Returns (lead +:+ body +:+ trailing_text (fst post))
     | inr what => Raises (FormatError what)
     end, wb)).
  { intros lead. step (read_timer self message wb t Hb).
    unfold bind, str_format.
    destruct (format (message t) x) as [body|what]; [|done].
    unfold ret, trailing_text. destruct (truthy_text (fst post)).
    - by rewrite append_assoc.
    - by rewrite append_nil_r. }
  unfold leading_text.
  destruct (truthy_text (fst pre)).
  - unfold bind at 1. unfold ret at 1. apply Hbody.
  - unfold bind at 1.
    step (read_timer self name wb t Hb).
    destruct (truthy_text (name t)); unfold ret at 1; apply Hbody.
Qed.

Lemma truthy_callable_sink t w :
  truthy_callable (logger t) w =
  (Returns (match click_sink t w with Some _ => true | None => false end), w).
Proof.
  unfold truthy_callable, click_sink.
  destruct (logger t) as [sink|]; [|done].
  by destruct (bool_decide (sink ∉ falsy_callables w)).
Qed.

Lemma click_sink_logger t w sink :
  click_sink t w = Some sink -> logger t = Some sink.
Proof.
  unfold click_sink. destruct (logger t) as [sink'|]; [|done].
  destruct (bool_decide (sink' ∉ falsy_callables w)); [|done].
  by intros [= ->].
Qed.

Lemma _click_timer self stop_timer msg_pre msg_post action w t xs :
  holds w self t xs ->
  _click self stop_timer msg_pre msg_post action w =
  match start_time t with
  | None =>
      (Raises (TimerNotRunningError (timer_name_of t)
                 (now_at (wall_reads w)) action), tick_wall w)
  | Some t0 =>
      (click_result t (sample t0 w) w,
       clicked self t xs t0 stop_timer msg_pre msg_post w)
  end.
Proof.
  intros [H Hxs]. unfold _click, clicked, click_result.
  step (read_timer self start_time w t H).
  destruct (start_time t) as [t0|] eqn:Hst.
  2: { by step (_timer_name_timer self w t H). }
  step (perf_counter_reading w). fold (sample t0 w).
  set (x := sample t0 w).
  set (t' := if stop_timer then with_start_time None t else t).
  set (w1 := tick_perf w).
  set (w2 := if stop_timer then set_timers <[self := t']> w1 else w1).
  assert (H2 : (if stop_timer then write_start_time self None else ret tt) w1
                = (Returns tt, w2)).
  { subst w2 t'. destruct stop_timer; [|done].
    by apply write_start_time_timer. }
  step H2.
  assert (Ht2 : timers w2 !! self = Some t').
  { subst w2 t'. destruct stop_timer; [|done]. simpl. apply lookup_insert_eq. }
  assert (Hrt : recorded_times t' = recorded_times t).
  { subst t'. by destruct stop_timer. }
  assert (Hlg' : logger t' = logger t).
  { subst t'. by destruct stop_timer. }
  assert (Hmsg : message t' = message t).
  { subst t'. by destruct stop_timer. }
  assert (Hl2 : lists w2 !! recorded_times t = Some xs).
  { subst w2. by destruct stop_timer. }
  step (read_timer self recorded_times w2 t' Ht2). rewrite Hrt.
  assert (H3 : list_append (recorded_times t) x w2 =
               (Returns tt, set_lists <[recorded_times t := xs ++ [x]]> w2)).
  { unfold list_append. by rewrite Hl2. }
  step H3.
  set (w3 := set_lists _ w2).
  assert (Ht3 : timers w3 !! self = Some t') by done.
  step (read_timer self logger w3 t' Ht3). rewrite Hlg'.
  assert (Hsink : click_sink t w3 = click_sink t w).
  { subst w3 w2 w1. by destruct stop_timer. }
  step (truthy_callable_sink t w3). rewrite Hsink.
  destruct (click_sink t w) as [sink|] eqn:Hcs; [|done].
  pose proof (click_sink_logger t w sink Hcs) as Hlg.
  unfold bind at 1. unfold bind at 1.
  rewrite (_get_logging_message_timer self x msg_pre msg_post w3 t' Ht3).
  rewrite Hmsg.
  replace (wall_reads w3) with (wall_reads w).
  2: { subst w3 w2 w1. by destruct stop_timer. }
  set (k := _ + _).
  destruct (format (message t) x) as [body|what]; [|done].
  assert (Ht4 : timers (wall_ticks k w3) !! self = Some t').
  { destruct (wall_ticks_frame k w3) as (-> & _). done. }
  rewrite (bind_returns _ _ _ _ _
             (log_timer self (MsgStr (logging_message t' body msg_pre
                                        msg_post (wall_reads w)))
                _ t' Ht4)).
  unfold logged. rewrite Hlg', Hlg.
  replace (logging_message t' body msg_pre msg_post (wall_reads w))
    with (logging_message t body msg_pre msg_post (wall_reads w)).
  2: { subst t'. by destruct stop_timer. }
  done.
Qed.

Lemma stop_timer_spec self msg_pre msg_post w t xs :
  holds w self t xs ->
  stop self msg_pre msg_post w =
  match start_time t with
  | None =>
      (Raises (TimerNotRunningError (timer_name_of t)
                 (now_at (wall_reads w)) ActStop), tick_wall w)
  | Some t0 =>
      (result_map VFloat (click_result t (sample t0 w) w),
       clicked self t xs t0 true msg_pre msg_post w)
  end.
Proof.
  intros H. unfold stop, bind.
  rewrite (_click_timer self true msg_pre msg_post ActStop w t xs H).
  destruct (start_time t) as [t0|]; [|done].
  by destruct (click_result t (sample t0 w) w).
Qed.

Lemma measure_timer_spec self msg_pre msg_post w t xs :
  holds w self t xs ->
  measure self msg_pre msg_post w =
  match start_time t with
  | None =>
      (Raises (TimerNotRunningError (timer_name_of t)
                 (now_at (wall_reads w)) ActMeasure), tick_wall w)
  | Some t0 =>
      (result_map VFloat (click_result t (sample t0 w) w),
       clicked self t xs t0 false msg_pre msg_post w)
  end.
Proof.
  intros H. unfold measure, bind.
  rewrite (_click_timer self false msg_pre msg_post ActMeasure w t xs H).
  destruct (start_time t) as [t0|]; [|done].
  by destruct (click_result t (sample t0 w) w).
Qed.

(** A click ends by returning its sample or by the formatter's error. *)
Lemma click_result_cases t x w :
  click_result t x w = Returns x \/
  exists what, click_result t x w = Raises (FormatError what).
Proof.
  unfold click_result. destruct (click_sink t w); [|by left].
  destruct (format (message t) x) as [body|what]; [by left | by right; eauto].
Qed.

(** What a successful start and a successful click leave in the store. *)
Lemma started_holds self t xs click_message w :
  holds w self t xs ->
  holds (started self t click_message w) self
    (with_start_time (Some (perf_counter_at (perf_reads w))) t) xs.
Proof.
  intros [H Hxs]. unfold started.
  set (t' := with_start_time _ t). set (w' := set_timers _ _).
  assert (Hw' : holds w' self t' xs).
  { split; [apply lookup_insert_eq | done]. }
  destruct (truthy_msg click_message); [|done].
  destruct (logged_frame t' click_message w') as (E1 & E2 & _).
  unfold holds. by rewrite E1, E2.
Qed.

Lemma logged_falsy t m w :
  falsy_callables (logged t m w) = falsy_callables w.
Proof.
  unfold logged. destruct (logger t) as [sink|]; [|done].
  destruct m as [s| |d]; try done.
  generalize w. induction (split_newline s) as [|line lines IH]; [done|].
  intros w0. unfold emit_all in *. cbn [fold_left]. by rewrite IH.
Qed.

Lemma emit_all_falsy sink lines w :
  falsy_callables (emit_all sink lines w) = falsy_callables w.
Proof.
  revert w. induction lines as [|line lines IH]; intros w; [done|].
  unfold emit_all in *. cbn [fold_left]. by rewrite IH.
Qed.

Lemma wall_ticks_falsy k w :
  falsy_callables (wall_ticks k w) = falsy_callables w.
Proof.
  induction k as [|k IH]; [done|]. unfold wall_ticks in *.
  cbn [Nat.iter]. cbn. exact IH.
Qed.

(** The store after a start and after a click, field by field. *)
Lemma started_frame self t m w :
  timers (started self t m w) =
    <[self := with_start_time (Some (perf_counter_at (perf_reads w))) t]>
      (timers w) /\
  lists (started self t m w) = lists w /\
  perf_reads (started self t m w) = S (perf_reads w) /\
  falsy_callables (started self t m w) = falsy_callables w.
Proof.
  unfold started. set (t' := with_start_time _ t). set (w' := set_timers _ _).
  destruct (truthy_msg m); [|done].
  destruct (logged_frame t' m w') as (-> & -> & ->).
  by rewrite logged_falsy.
Qed.

Lemma clicked_frame self t xs t0 stop_timer msg_pre msg_post w :
  timers (clicked self t xs t0 stop_timer msg_pre msg_post w) =
    (if stop_timer then <[self := with_start_time None t]> (timers w)
     else timers w) /\
  lists (clicked self t xs t0 stop_timer msg_pre msg_post w) =
    <[recorded_times t := xs ++ [sample t0 w]]> (lists w) /\
  perf_reads (clicked self t xs t0 stop_timer msg_pre msg_post w) =
    S (perf_reads w) /\
  falsy_callables (clicked self t xs t0 stop_timer msg_pre msg_post w) =
    falsy_callables w.
Proof.
  unfold clicked. set (w3 := set_lists _ _).
  assert (H3 : timers w3 =
                 (if stop_timer
                  then <[self := with_start_time None t]> (timers w)
                  else timers w) /\
               lists w3 = <[recorded_times t := xs ++ [sample t0 w]]> (lists w)
               /\ perf_reads w3 = S (perf_reads w) /\
               falsy_callables w3 = falsy_callables w).
  { subst w3. by destruct stop_timer. }
  destruct (click_sink t w) as [sink|]; [|exact H3].
  set (k := _ + _).
  destruct (wall_ticks_frame k w3) as (F1 & F2 & F3 & _).
  pose proof (wall_ticks_falsy k w3) as F4.
  destruct H3 as (E1 & E2 & E3 & E4).
  destruct (format (message t) (sample t0 w)) as [body|what].
  - set (lines := split_newline _).
    destruct (emit_all_frame sink lines (wall_ticks k w3))
      as (-> & -> & -> & _).
    rewrite emit_all_falsy. by rewrite F1, F2, F3, F4.
  - by rewrite F1, F2, F3, F4.
Qed.

Lemma clicked_holds self t xs t0 stop_timer msg_pre msg_post w :
  holds w self t xs ->
  holds (clicked self t xs t0 stop_timer msg_pre msg_post w) self
    (if stop_timer then with_start_time None t else t)
    (xs ++ [sample t0 w]).
Proof.
  intros [H Hxs].
  destruct (clicked_frame self t xs t0 stop_timer msg_pre msg_post w)
    as (E1 & E2 & _).
  unfold holds. rewrite E1, E2. split.
  - destruct stop_timer; [apply lookup_insert_eq | done].
  - replace (recorded_times (if stop_timer then with_start_time None t else t))
      with (recorded_times t) by (by destruct stop_timer).
    apply lookup_insert_eq.
Qed.

Lemma run_op_outcome self o w t xs :
  holds w self t xs -> run_op self o w = outcome self t xs o w.
Proof.
  intros H. pose proof H as [Ht Hxs].
  destruct o as [m|pre post|pre post|pre post|m| | |exc]; simpl.
  - by apply start_timer.
  - by apply measure_timer_spec.
  - by apply stop_timer_spec.
  - unfold restart, bind.
    rewrite (stop_timer_spec self pre post w t xs H).
    destruct (start_time t) as [t0|] eqn:Hst; [|done].
    pose proof (clicked_holds self t xs t0 true pre post w H) as [Ht' _].
    destruct (click_result t (sample t0 w) w); cbn [result_map]; try done.
    by rewrite (start_timer self MsgNone _ _ Ht').
  - by apply log_timer.
  - unfold times. by step (read_timer self recorded_times w t Ht).
  - unfold __enter__, bind. rewrite (start_timer self MsgNone w t Ht).
    by destruct (start_time t).
  - unfold __exit__. step (read_timer self start_time w t Ht).
    destruct (start_time t) as [t0|] eqn:Hst; [|done].
    unfold bind. rewrite (stop_timer_spec self MsgNone MsgNone w t xs H).
    rewrite Hst. by destruct (click_result t (sample t0 w) w).
Qed.

Ltac step_facts :=
  repeat split;
  first [ done | by intros [? ?] | by intros; eexists | by left; eexists
        | by right; left | by right; right ].

(** One operation, seen from the timer: the samples grow by the clicks
    that pass the guard, the configuration stays, a guard raises exactly
    when the specification's machine says the operation fails, and, unless
    the formatter raises, the state moves as the machine does. *)
Lemma outcome_step self t xs o w :
  holds w self t xs ->
  exists t' new,
    holds (snd (outcome self t xs o w)) self t' (xs ++ new) /\
    (name t' = name t /\ message t' = message t /\ logger t' = logger t /\
     recorded_times t' = recorded_times t) /\
    length new = guard_passes o (is_running t) /\
    is_guard_error (fst (outcome self t xs o w)) =
      spec_fails o (state_of t) /\
    (is_format_error (fst (outcome self t xs o w)) = false ->
     state_of t' = spec_step o (state_of t) /\
     clicks_made o (is_running t) (fst (outcome self t xs o w)) =
       guard_passes o (is_running t)) /\
    (is_format_error (fst (outcome self t xs o w)) = true ->
     clicks_made o (is_running t) (fst (outcome self t xs o w)) = 0 /\
     guard_passes o (is_running t) = 1) /\
    ((exists v, fst (outcome self t xs o w) = Returns v) \/
     is_guard_error (fst (outcome self t xs o w)) = true \/
     is_format_error (fst (outcome self t xs o w)) = true).
Proof.
  intros H.
  assert (Hsame : holds w self t (xs ++ [])) by by rewrite app_nil_r.
  assert (Htick : holds (tick_wall w) self t (xs ++ [])) by done.
  assert (Hlog : forall m, holds (logged t m w) self t (xs ++ [])).
  { intros m. destruct (logged_frame t m w) as (E1 & E2 & _).
    destruct Hsame as [Ht Hxs]. unfold holds. by rewrite E1, E2. }
  pose proof (started_holds self t (xs ++ []) MsgNone w Hsame) as Henter.
  unfold state_of, is_running.
  destruct o as [m|pre post|pre post|pre post|m| | |exc]; cbn [outcome];
    destruct (start_time t) as [t0|] eqn:Hst;
    unfold already_running, not_running;
    try (destruct (click_result_cases t (sample t0 w) w) as [E | [what E]];
         rewrite E);
    cbn [fst snd result_map is_guard_error is_format_error spec_fails
         spec_step guard_passes clicks_made].
  - exists t, []. split; [exact Htick | rewrite Hst; step_facts].
  - eexists _, []. split; [by apply started_holds | step_facts].
  - exists t, [sample t0 w].
    split; [exact (clicked_holds self t xs t0 false pre post w H) |].
    rewrite Hst. step_facts.
  - exists t, [sample t0 w].
    split; [exact (clicked_holds self t xs t0 false pre post w H) |].
    rewrite Hst. step_facts.
  - exists t, []. split; [exact Htick | rewrite Hst; step_facts].
  - exists (with_start_time None t), [sample t0 w].
    split; [exact (clicked_holds self t xs t0 true pre post w H) |].
    step_facts.
  - exists (with_start_time None t), [sample t0 w].
    split; [exact (clicked_holds self t xs t0 true pre post w H) |].
    step_facts.
  - exists t, []. split; [exact Htick | rewrite Hst; step_facts].
  - pose proof (clicked_holds self t xs t0 true pre post w H) as Hc.
    pose proof (started_holds self _ _ MsgNone _ Hc) as Hs.
    eexists _, [sample t0 w]. split; [exact Hs | step_facts].
  - exists (with_start_time None t), [sample t0 w].
    split; [exact (clicked_holds self t xs t0 true pre post w H) |].
    step_facts.
  - exists t, []. split; [exact Htick | rewrite Hst; step_facts].
  - exists t, []. split; [apply Hlog | rewrite Hst; step_facts].
  - exists t, []. split; [apply Hlog | rewrite Hst; step_facts].
  - exists t, []. split; [exact Hsame | rewrite Hst; step_facts].
  - exists t, []. split; [exact Hsame | rewrite Hst; step_facts].
  - exists t, []. split; [exact Htick | rewrite Hst; step_facts].
  - eexists _, []. split; [exact Henter | step_facts].
  - exists (with_start_time None t), [sample t0 w].
    split; [exact (clicked_holds self t xs t0 true MsgNone MsgNone w H) |].
    step_facts.
  - exists (with_start_time None t), [sample t0 w].
    split; [exact (clicked_holds self t xs t0 true MsgNone MsgNone w H) |].
    step_facts.
  - exists t, []. split; [exact Hsame | rewrite Hst; step_facts].
Qed.


Lemma run_ops_cons self o os w :
  run_ops self (o :: os) w =
  (fst (run_op self o w) :: fst (run_ops self os (snd (run_op self o w))),
   snd (run_ops self os (snd (run_op self o w)))).
Proof.
  simpl. destruct (run_op self o w) as [r w1]. cbn [fst snd].
  by destruct (run_ops self os w1) as [rs w2].
Qed.

(** A whole sequence of calls, seen from the timer. *)
Lemma run_ops_invariant self os w t xs :
  holds w self t xs ->
  exists t' new,
    holds (snd (run_ops self os w)) self t' (xs ++ new) /\
    (name t' = name t /\ message t' = message t /\ logger t' = logger t /\
     recorded_times t' = recorded_times t) /\
    length new = clicks_passed self os w /\
    clicks self os w <= clicks_passed self os w /\
    (Forall (fun r => is_format_error r = false) (fst (run_ops self os w)) ->
     state_of t' = spec_run os (state_of t) /\
     clicks self os w = clicks_passed self os w).
Proof.
  revert w t xs. induction os as [|o os IH]; intros w t xs H.
  - exists t, []. rewrite app_nil_r. done.
  - rewrite run_ops_cons.
    cbn [fst snd clicks clicks_passed spec_run fold_left].
    pose proof H as [Ht _].
    assert (Hrun : running self w = is_running t).
    { unfold running. by rewrite Ht. }
    rewrite Hrun, (run_op_outcome self o w t xs H).
    destruct (outcome_step self t xs o w H)
      as (t1 & new1 & H1 & (N1 & M1 & L1 & R1) & P1 & _ & S1 & F1 & _).
    destruct (outcome self t xs o w) as [r w1]. cbn [fst snd] in *.
    destruct (IH w1 t1 (xs ++ new1) H1)
      as (t2 & new2 & H2 & (N2 & M2 & L2 & R2) & P2 & Le2 & S2).
    exists t2, (new1 ++ new2). rewrite app_assoc.
    split; [exact H2|]. split; [by rewrite N2, M2, L2, R2|].
    split; [rewrite length_app; by rewrite P1, P2|].
    split.
    + destruct (is_format_error r) eqn:Hf.
      * destruct (F1 eq_refl) as [-> ->]. lia.
      * destruct (S1 eq_refl) as [_ ->]. lia.
    + intros Hall. inversion Hall as [|? ? Hr Hrest]; subst.
      destruct (S1 Hr) as [St ->]. destruct (S2 Hrest) as [St2 ->].
      split; [by rewrite St2, St | done].
Qed.

(** ** Guards: when the calls fail (C2) *)

(** C2: [start] raises [TimerAlreadyRunningError] exactly when
    [start_time] is not [None]; [measure] and [stop] raise
    [TimerNotRunningError], carrying the action "measure" and "stop", exactly
    when [start_time] is [None]; whenever one of the three raises such an
    error, the timer's fields and its recorded samples are what they were
    before the call. The only other way a call ends without returning is
    the error of the formatter, in [measure] and [stop] and never in
    [start]: it is raised after the sample has been appended and, for
    [stop], after [start_time] has been cleared. *)
Theorem start_measure_stop_guards self w t xs m pre post :
  holds w self t xs ->
  ((exists nm ts, fst (start self m w) =
                  Raises (TimerAlreadyRunningError nm ts))
   <-> start_time t <> None) /\
  ((exists nm ts, fst (measure self pre post w) =
                  Raises (TimerNotRunningError nm ts ActMeasure))
   <-> start_time t = None) /\
  ((exists nm ts, fst (stop self pre post w) =
                  Raises (TimerNotRunningError nm ts ActStop))
   <-> start_time t = None) /\
  (action_text ActMeasure = "measure" /\ action_text ActStop = "stop") /\
  (forall c,
     c ∈ [start self m w; measure self pre post w; stop self pre post w] ->
     (exists v, fst c = Returns v) \/
     (is_guard_error (fst c) = true /\ unchanged self w (snd c)) \/
     (exists what, fst c = Raises (FormatError what))) /\
  is_format_error (fst (start self m w)) = false /\
  (forall what,
     fst (measure self pre post w) = Raises (FormatError what) ->
     exists t0, start_time t = Some t0 /\
       holds (snd (measure self pre post w)) self t (xs ++ [sample t0 w])) /\
  (forall what,
     fst (stop self pre post w) = Raises (FormatError what) ->
     exists t0, start_time t = Some t0 /\
       holds (snd (stop self pre post w)) self (with_start_time None t)
         (xs ++ [sample t0 w])).
Proof.
  intros H. pose proof H as [Ht Hxs].
  rewrite (start_timer self m w t Ht).
  rewrite (measure_timer_spec self pre post w t xs H).
  rewrite (stop_timer_spec self pre post w t xs H).
  assert (Hu : unchanged self w (tick_wall w)) by done.
  destruct (start_time t) as [t0|] eqn:Hst; cbn [fst snd].
  - pose proof (clicked_holds self t xs t0 false pre post w H) as Hm.
    pose proof (clicked_holds self t xs t0 true pre post w H) as Hs.
    destruct (click_result_cases t (sample t0 w) w) as [E | [what E]];
      rewrite E; cbn [result_map].
    + split; [split; [done | by eauto] |].
      split; [split; [by intros (? & ? & ?) | done] |].
      split; [split; [by intros (? & ? & ?) | done] |].
      split; [done|].
      split; [|split; [done | split; intros ? [=]]].
      intros c Hc. set_unfold in Hc.
      destruct Hc as [Hc | [Hc | [Hc | []]]]; subst c; cbn [fst snd];
        eauto.
    + split; [split; [done | by eauto] |].
      split; [split; [by intros (? & ? & ?) | done] |].
      split; [split; [by intros (? & ? & ?) | done] |].
      split; [done|].
      split; [|split; [done | split; intros ? _; by eauto]].
      intros c Hc. set_unfold in Hc.
      destruct Hc as [Hc | [Hc | [Hc | []]]]; subst c; cbn [fst snd];
        eauto.
  - split; [split; [by intros (? & ? & ?) | done] |].
    split; [split; [done | by eauto] |].
    split; [split; [done | by eauto] |].
    split; [done|].
    split; [|split; [done | split; intros ? [=]]].
    intros c Hc. set_unfold in Hc.
    destruct Hc as [Hc | [Hc | [Hc | []]]]; subst c; cbn [fst snd]; eauto.
Qed.

(** ** The running state (C4) *)



(** ** The recorded samples (C5) *)



(** ** Scoped use (C3, C10) *)

Lemma __enter___timer self w t :
  timers w !! self = Some t -> start_time t = None ->
  __enter__ self w = (Returns VNone, started self t MsgNone w) /\
  start self MsgNone w = (Returns (VTimer self), started self t MsgNone w).
Proof.
  intros Ht Hst. unfold __enter__, bind.
  rewrite (start_timer self MsgNone w t Ht). by rewrite Hst.
Qed.

(** C10: on a stopped timer [__enter__] starts the timer and returns
    [None], while [start] on the same store returns the timer itself; the
    block of [with self as target] therefore runs with its target bound to
    [None], in a store where the timer is running. *)
Theorem enter_returns_none self w t xs :
  holds w self t xs -> start_time t = None ->
  __enter__ self w = (Returns VNone, snd (start self MsgNone w)) /\
  fst (start self MsgNone w) = Returns (VTimer self) /\
  running self (snd (start self MsgNone w)) = true /\
  (forall body,
     with_timer self body w =
     leave self (body VNone (snd (start self MsgNone w)))).
Proof.
  intros H Hst. pose proof H as [Ht _].
  destruct (__enter___timer self w t Ht Hst) as [E S]. rewrite S.
  split; [exact E|]. split; [done|]. split.
  - destruct (started_holds self t xs MsgNone w H) as [Ht' _].
    unfold running. cbn [snd]. by rewrite Ht'.
  - intros body. unfold with_timer. by rewrite E.
Qed.

Lemma started_perf_reads self t m w :
  perf_reads (started self t m w) = S (perf_reads w).
Proof. by destruct (started_frame self t m w) as (_ & _ & -> & _). Qed.





(** ** Restart (C6) *)


(** ** Logging is only a side effect (C7) *)












(** ** The lines of a click (C8, X15) *)

Lemma split_newline_nonempty s : split_newline s <> [].
Proof.
  destruct s as [|c s]; [done|]. simpl.
  destruct (Ascii.eqb c newline); [done|].
  by destruct (split_newline s).
Qed.

Lemma append_cons c (a b : string) : String c a +:+ b = String c (a +:+ b).
Proof. reflexivity. Qed.

Lemma split_newline_sep (a b : string) :
  split_newline (a +:+ NL +:+ b) = split_newline a ++ split_newline b.
Proof.
  induction a as [|c a IH]; [done|].
  rewrite append_cons. simpl split_newline.
  destruct (Ascii.eqb c newline); [by rewrite IH|].
  rewrite IH. pose proof (split_newline_nonempty a).
  by destruct (split_newline a).
Qed.

Lemma split_newline_free s : newline_free s = true -> split_newline s = [s].
Proof.
  induction s as [|c s IH]; [done|]. simpl.
  destruct (Ascii.eqb c newline); [done|]. simpl. intros H.
  by rewrite (IH H).
Qed.

Lemma newline_free_append (a b : string) :
  newline_free (a +:+ b) = newline_free a && newline_free b.
Proof.
  induction a as [|c a IH]; [done|].
  rewrite append_cons. simpl. rewrite IH. by rewrite andb_assoc.
Qed.

Lemma digit_not_newline n : Ascii.eqb (digit n) newline = false.
Proof.
  unfold digit. pose proof (Nat.mod_upper_bound n 10 ltac:(lia)) as H.
  destruct (n mod 10) as [|[|[|[|[|[|[|[|[|[|k]]]]]]]]]]; try done. lia.
Qed.

Lemma zero_padded_newline_free width n :
  newline_free (zero_padded width n) = true.
Proof.
  revert n. induction width as [|width IH]; intros n; [done|].
  cbn [zero_padded]. rewrite newline_free_append, IH.
  cbn [newline_free andb]. by rewrite digit_not_newline.
Qed.

Lemma append_length (a b : string) :
  String.length (a +:+ b) = String.length a + String.length b.
Proof.
  induction a as [|c a IH]; [done|]. rewrite append_cons. simpl.
  by rewrite IH.
Qed.

Lemma zero_padded_length width n : String.length (zero_padded width n) = width.
Proof.
  revert n. induction width as [|width IH]; intros n; [done|].
  cbn [zero_padded]. rewrite append_length, IH. cbn [String.length]. lia.
Qed.

Lemma isoformat_seconds_shape d :
  newline_free (isoformat_seconds d) = true /\
  String.length (isoformat_seconds d) = 19.
Proof.
  unfold isoformat_seconds. split.
  - by rewrite !newline_free_append, !zero_padded_newline_free.
  - rewrite !append_length, !zero_padded_length. done.
Qed.

Lemma marker_text_one_line d ts :
  split_newline (marker_text d ts) = [marker_text d ts].
Proof.
  apply split_newline_free. destruct (isoformat_seconds_shape ts) as [F _].
  destruct d; unfold marker_text; by rewrite newline_free_append, F.
Qed.

Lemma logging_message_lines t body pre post n :
  split_newline (logging_message t body pre post n) =
  leading_lines t pre (now_at n) ++
  split_newline body ++
  trailing_lines post (now_at (snd (resolved pre n) + n)).
Proof.
  unfold logging_message.
  assert (Htrail : forall lead : string,
    split_newline (lead +:+ body +:+
                   trailing_text (fst (resolved post
                                         (snd (resolved pre n) + n)))) =
    split_newline (lead +:+ body) ++
    trailing_lines post (now_at (snd (resolved pre n) + n))).
  { intros lead. unfold trailing_text.
    destruct post as [[|c s]| |d]; cbn [resolved fst truthy_text text_of
                                         trailing_lines].
    - by rewrite !append_nil_r, app_nil_r.
    - by rewrite <- append_assoc, split_newline_sep.
    - by rewrite !append_nil_r, app_nil_r.
    - assert (truthy_text (Some (marker_text d
                (now_at (snd (resolved pre n) + n)))) = true) as Hd
        by by destruct d.
      cbn [truthy_text] in Hd. rewrite Hd.
      by rewrite <- append_assoc, split_newline_sep, marker_text_one_line. }
  assert (Hlead : forall lead : string,
    split_newline ((lead +:+ NL) +:+ body) =
    split_newline lead ++ split_newline body).
  { intros lead. by rewrite append_assoc, split_newline_sep. }
  assert (Hname :
    split_newline (leading_text t None +:+ body) =
    match name t with
    | Some (String c n0) => split_newline (String c n0 +:+ ":")
    | _ => []
    end ++ split_newline body).
  { unfold leading_text. cbn [truthy_text].
    destruct (name t) as [[|c n0]|]; cbn [truthy_text text_of]; try done.
    by rewrite <- append_assoc, Hlead. }
  rewrite Htrail, app_assoc. f_equal.
  destruct pre as [[|c s]| |d]; cbn [resolved fst leading_lines].
  - exact Hname.
  - unfold leading_text. cbn [truthy_text text_of]. by rewrite Hlead.
  - exact Hname.
  - unfold leading_text.
    assert (truthy_text (Some (marker_text d (now_at n))) = true) as ->
      by by destruct d.
    cbn [text_of]. by rewrite Hlead, marker_text_one_line.
Qed.

Lemma click_sink_true t w sink :
  logger t = Some sink -> sink ∉ falsy_callables w ->
  click_sink t w = Some sink.
Proof.
  intros Hlg Hs. unfold click_sink. rewrite Hlg.
  by rewrite bool_decide_eq_true_2.
Qed.


Lemma clicked_emitted self t xs t0 stop_timer pre post w sink body :
  click_sink t w = Some sink ->
  format (message t) (sample t0 w) = inl body ->
  emitted (clicked self t xs t0 stop_timer pre post w) =
  emitted w ++
  map (pair sink)
    (leading_lines t pre (now_at (wall_reads w)) ++
     split_newline body ++
     trailing_lines post
       (now_at (snd (resolved pre (wall_reads w)) + wall_reads w))).
Proof.
  intros Hlg Hb. unfold clicked. rewrite Hlg, Hb.
  set (w3 := set_lists _ _). set (k := _ + _).
  destruct (emit_all_frame sink
              (split_newline (logging_message t body pre post
                                (wall_reads w)))
              (wall_ticks k w3)) as (_ & _ & _ & _ & ->).
  destruct (wall_ticks_frame k w3) as (_ & _ & _ & _ & ->).
  rewrite logging_message_lines. subst w3. by destruct stop_timer.
Qed.



(** ** The error of a click on a stopped timer (C9) *)

(** C9: on a stopped timer [measure] and [stop] raise a
    [TimerNotRunningError] that carries the timer's rendered name
    ("Timer(name=<name>)" for a name that is not empty, "Unnamed Timer"
    otherwise), the wall-clock time of the failure and the action, and whose
    message is "[<timestamp>] Tried to click `<action>` on <timer-name> but
    it wasn't running.", the action between backquotes, with the timestamp
    in ISO format and the action "measure" or "stop" as called. *)
Theorem not_running_error_message self w t xs pre post :
  holds w self t xs -> start_time t = None ->
  exists e_measure e_stop,
    fst (measure self pre post w) = Raises e_measure /\
    fst (stop self pre post w) = Raises e_stop /\
    e_measure = TimerNotRunningError (timer_name_of t)
                  (now_at (wall_reads w)) ActMeasure /\
    e_stop = TimerNotRunningError (timer_name_of t)
               (now_at (wall_reads w)) ActStop /\
    error_message e_measure =
      "[" +:+ isoformat (now_at (wall_reads w)) +:+
      "] Tried to click `measure` on " +:+ timer_name_of t +:+
      " but it wasn't running." /\
    error_message e_stop =
      "[" +:+ isoformat (now_at (wall_reads w)) +:+
      "] Tried to click `stop` on " +:+ timer_name_of t +:+
      " but it wasn't running." /\
    timer_name_of t =
      match name t with
      | Some (String c n) => "Timer(name=" +:+ String c n +:+ ")"
      | _ => "Unnamed Timer"
      end.
Proof.
  intros H Hst.
  rewrite (stop_timer_spec self pre post w t xs H).
  rewrite (measure_timer_spec self pre post w t xs H).
  rewrite Hst. eexists _, _.
  split; [reflexivity|]. split; [reflexivity|].
  split; [reflexivity|]. split; [reflexivity|].
  assert (E : forall (a b c d : string),
            a +:+ b +:+ c +:+ d +:+ "` " +:+ "on " +:+ timer_name_of t +:+
              " but it wasn't running." =
            a +:+ b +:+ (c +:+ d +:+ "` on ") +:+ timer_name_of t +:+
              " but it wasn't running.").
  { intros a b c d. by rewrite !append_assoc. }
  split; [|split; [|done]]; cbn [error_message action_text].
  - by rewrite (E "[" (isoformat (now_at (wall_reads w)))
                  "] Tried to click `" "measure").
  - by rewrite (E "[" (isoformat (now_at (wall_reads w)))
                  "] Tried to click `" "stop").
Qed.

(** ** The [times] accessor (C1) *)

(** C1: [times] returns the list object the timer's [recorded_times] field
    refers to, not a copy: the call changes nothing in the store, and what is
    then done to the returned list is done to the timer's recorded samples
    (an [append] adds to them, a [clear] empties them). *)
Theorem times_returns_the_stored_list self w t xs :
  holds w self t xs ->
  times self w = (Returns (VList (recorded_times t)), w) /\
  (forall x,
     samples self (snd (list_append (recorded_times t) x w)) =
     Some (xs ++ [x])) /\
  samples self (snd (list_clear (recorded_times t) w)) = Some [].
Proof.
  intros [Ht Hxs].
  split; [unfold times; by step (read_timer self recorded_times w t Ht)|].
  unfold samples, list_append, list_clear. rewrite Hxs. cbn [snd].
  split; [intros x|]; cbn; rewrite Ht; apply lookup_insert_eq.
Qed.

(** * Beyond the specification's claims *)

(** ** [start] on a running timer (X1) *)

(** X1: [start] on a running timer raises a [TimerAlreadyRunningError]
    that carries the timer's rendered name and the wall-clock time of the
    call, with the message "[<timestamp>] Tried to start <timer-name> but it
    was already running."; the wall clock has been read once, and the click
    message, whatever it is, has not been logged. *)
Theorem already_running_error_message self w t t0 m :
  timers w !! self = Some t -> start_time t = Some t0 ->
  exists e,
    start self m w = (Raises e, tick_wall w) /\
    e = TimerAlreadyRunningError (timer_name_of t) (now_at (wall_reads w)) /\
    error_message e =
      "[" +:+ isoformat (now_at (wall_reads w)) +:+ "] Tried to start " +:+
      timer_name_of t +:+ " but it was already running." /\
    emitted (tick_wall w) = emitted w.
Proof.
  intros Ht Hst. eexists. rewrite (start_timer self m w t Ht), Hst.
  split; [reflexivity|]. split; [reflexivity|]. split; reflexivity.
Qed.

(** ** [log] (X2, X3) *)

Lemma logged_emitted t msg w :
  emitted (logged t msg w) =
  emitted w ++
  match logger t with
  | None => []
  | Some sink =>
      map (pair sink)
        match msg with
        | MsgNone => []
        | MsgDefault d => [marker_text d (now_at (wall_reads w))]
        | MsgStr s => split_newline s
        end
  end.
Proof.
  unfold logged. destruct (logger t) as [sink|]; [|by rewrite app_nil_r].
  destruct msg as [s| |d]; [|by rewrite app_nil_r|done].
  by destruct (emit_all_frame sink (split_newline s) w) as (_ & _ & _ & _ & ->).
Qed.

(** X2: [log] returns the timer itself and leaves every timer, every list
    and the monotonic clock alone. Without a logger, or with the message
    [None], it sends nothing; a default marker sends one line, its prefix and
    the time; a string is sent line by line, so that the empty string is sent
    as one empty line. *)
Theorem log_sends_lines self w t msg :
  timers w !! self = Some t ->
  fst (log self msg w) = Returns (VTimer self) /\
  (timers (snd (log self msg w)) = timers w /\
   lists (snd (log self msg w)) = lists w /\
   perf_reads (snd (log self msg w)) = perf_reads w) /\
  emitted (snd (log self msg w)) =
    emitted w ++
    match logger t with
    | None => []
    | Some sink =>
        map (pair sink)
          match msg with
          | MsgNone => []
          | MsgDefault d => [marker_text d (now_at (wall_reads w))]
          | MsgStr s => split_newline s
          end
    end /\
  split_newline "" = [""].
Proof.
  intros Ht. rewrite (log_timer self msg w t Ht). cbn [fst snd].
  split; [done|]. split; [apply logged_frame|].
  split; [apply logged_emitted | done].
Qed.

Lemma join_split_newline s : join_newline (split_newline s) = s.
Proof.
  induction s as [|c s IH]; [done|]. cbn [split_newline].
  pose proof (split_newline_nonempty s) as Hne.
  destruct (Ascii.eqb c newline) eqn:Hc.
  - apply Ascii.eqb_eq in Hc. subst c. cbn [join_newline].
    destruct (split_newline s) as [|piece pieces]; [done|].
    by rewrite IH.
  - destruct (split_newline s) as [|piece pieces]; [done|].
    cbn [join_newline] in *. destruct pieces as [|piece' pieces].
    + by rewrite IH.
    + by rewrite append_cons, IH.
Qed.

Lemma split_newline_length s :
  length (split_newline s) = S (count_newlines s).
Proof.
  induction s as [|c s IH]; [done|]. cbn [split_newline count_newlines].
  pose proof (split_newline_nonempty s) as Hne.
  destruct (Ascii.eqb c newline).
  - cbn [length]. by rewrite IH.
  - destruct (split_newline s) as [|piece pieces]; [done|].
    cbn [length] in *. by rewrite IH.
Qed.

Lemma split_newline_pieces s :
  Forall (fun piece => newline_free piece = true) (split_newline s).
Proof.
  induction s as [|c s IH]; [by constructor|]. cbn [split_newline].
  destruct (Ascii.eqb c newline) eqn:Hc.
  - by constructor.
  - destruct (split_newline s) as [|piece pieces]; [by repeat constructor; cbn; rewrite Hc|].
    inversion IH as [|? ? Hp Hps]; subst. constructor; [|done].
    cbn [newline_free]. by rewrite Hc, Hp.
Qed.

(** X3: the lines that [log] sends for a string are the string cut at its
    newlines: joined again with newlines they give the string back, none of
    them contains a newline, and there is one more of them than the string
    has newlines (so the logger is always invoked at least once). *)
Theorem log_lines_join_back self w t sink s :
  timers w !! self = Some t -> logger t = Some sink ->
  exists sent,
    emitted (snd (log self (MsgStr s) w)) =
      emitted w ++ map (pair sink) sent /\
    join_newline sent = s /\
    Forall (fun line => newline_free line = true) sent /\
    length sent = S (count_newlines s).
Proof.
  intros Ht Hlg. exists (split_newline s).
  rewrite (log_timer self (MsgStr s) w t Ht). cbn [snd].
  rewrite logged_emitted, Hlg.
  split; [done|]. split; [apply join_split_newline|].
  split; [apply split_newline_pieces | apply split_newline_length].
Qed.

(** ** [start] with a click message (X4) *)

(** X4: a successful [start] stores the reading of the monotonic clock it
    takes, the only one, as [start_time], leaves the recorded samples alone,
    and logs its click message through [log] only when the message is true
    and there is a logger: a default marker gives its line, a string that is
    not empty its lines, and [None] or the empty string nothing. *)
Theorem start_stores_reading_and_logs self w t xs m :
  holds w self t xs -> start_time t = None ->
  exists w',
    start self m w = (Returns (VTimer self), w') /\
    holds w' self
      (with_start_time (Some (perf_counter_at (perf_reads w))) t) xs /\
    perf_reads w' = S (perf_reads w) /\
    emitted w' =
      emitted w ++
      match logger t with
      | None => []
      | Some sink =>
          map (pair sink) (trailing_lines m (now_at (wall_reads w)))
      end.
Proof.
  intros H Hst. pose proof H as [Ht _]. eexists.
  rewrite (start_timer self m w t Ht), Hst.
  split; [reflexivity|]. split; [exact (started_holds self t xs m w H)|].
  split; [apply started_perf_reads|].
  unfold started.
  assert (Hnil : emitted w =
                 emitted w ++ match logger t with
                              | None => []
                              | Some sink => map (pair sink) []
                              end).
  { destruct (logger t); by rewrite app_nil_r. }
  destruct m as [[|c s]| |d]; cbn [truthy_msg trailing_lines]; try exact Hnil.
  - by rewrite logged_emitted.
  - by rewrite logged_emitted.
Qed.

(** ** The context manager on a running timer (X8) *)

(** X8: entering a timer that is already running raises
    [TimerAlreadyRunningError] out of the [with] statement: the block is not
    run, [__exit__] is not called, and the timer is left running, its
    [start_time] and its samples untouched. *)
Theorem with_on_a_running_timer self w t xs t0 body :
  holds w self t xs -> start_time t = Some t0 ->
  with_timer self body w =
    (Raises (TimerAlreadyRunningError (timer_name_of t)
               (now_at (wall_reads w))), tick_wall w) /\
  holds (tick_wall w) self t xs /\
  running self (tick_wall w) = true.
Proof.
  intros H Hst. pose proof H as [Ht _].
  split; [|split; [done|]].
  - unfold with_timer, __enter__, bind.
    by rewrite (start_timer self MsgNone w t Ht), Hst.
  - unfold running, is_running. cbn. by rewrite Ht, Hst.
Qed.

(** ** Several measures in one running session (X5) *)





(** ** What the operations leave alone (X6) *)

Lemma others_untouched_refl self l w : others_untouched self l w w.
Proof. by split. Qed.

Lemma others_untouched_trans self l w1 w2 w3 :
  others_untouched self l w1 w2 -> others_untouched self l w2 w3 ->
  others_untouched self l w1 w3.
Proof.
  intros [T1 L1] [T2 L2]. split.
  - intros other Ho. by rewrite T2, T1.
  - intros l' Hl. by rewrite L2, L1.
Qed.

Lemma started_others self l t m w :
  others_untouched self l w (started self t m w).
Proof.
  unfold started.
  set (t' := with_start_time _ t). set (w' := set_timers _ _).
  assert (H' : others_untouched self l w w').
  { split; [|done]. intros other Ho. subst w'. cbn.
    by apply lookup_insert_ne. }
  destruct (truthy_msg m); [|done].
  destruct (logged_frame t' m w') as (E1 & E2 & _).
  destruct H' as [T L]. split.
  - intros other Ho. by rewrite E1, T.
  - intros l' Hl. by rewrite E2, L.
Qed.

Lemma clicked_others self t xs t0 stop_timer pre post w :
  others_untouched self (recorded_times t) w
    (clicked self t xs t0 stop_timer pre post w).
Proof.
  unfold clicked. set (w3 := set_lists _ _).
  assert (H3 : others_untouched self (recorded_times t) w w3).
  { split.
    - intros other Ho. subst w3. destruct stop_timer; [|done]. cbn.
      by apply lookup_insert_ne.
    - intros l' Hl. subst w3. destruct stop_timer; cbn;
        by apply lookup_insert_ne. }
  destruct (click_sink t w) as [sink|]; [|done].
  set (k := _ + _).
  destruct (wall_ticks_frame k w3) as (F1 & F2 & _).
  destruct H3 as [T L].
  destruct (format (message t) (sample t0 w)) as [body|what].
  - set (lines := split_newline _).
    destruct (emit_all_frame sink lines (wall_ticks k w3)) as (E1 & E2 & _).
    split.
    + intros other Ho. by rewrite E1, F1, T.
    + intros l' Hl. by rewrite E2, F2, L.
  - split.
    + intros other Ho. by rewrite F1, T.
    + intros l' Hl. by rewrite F2, L.
Qed.

Lemma outcome_others self t xs o w :
  others_untouched self (recorded_times t) w (snd (outcome self t xs o w)).
Proof.
  assert (Htick : others_untouched self (recorded_times t) w (tick_wall w))
    by done.
  assert (Hlog : forall m,
            others_untouched self (recorded_times t) w (logged t m w)).
  { intros m. destruct (logged_frame t m w) as (E1 & E2 & _).
    split; intros; by rewrite ?E1, ?E2. }
  destruct o as [m|pre post|pre post|pre post|m| | |exc]; cbn [outcome];
    try destruct (start_time t) as [t0|];
    unfold already_running, not_running;
    try destruct (click_result t (sample t0 w) w) as [x|e|];
    cbn [snd];
    try exact Htick; try apply others_untouched_refl;
    try apply started_others; try apply clicked_others; try apply Hlog.
  eapply others_untouched_trans; [apply clicked_others|].
  apply started_others.
Qed.

(** X6: the operations of a timer reach only that timer and its own list:
    over every sequence of calls on [self], every other timer in the store
    keeps all its fields, and every list but the one [self.recorded_times]
    refers to keeps its contents. *)
Theorem other_objects_untouched self w t xs os :
  holds w self t xs ->
  others_untouched self (recorded_times t) w (snd (run_ops self os w)).
Proof.
  revert w t xs. induction os as [|o os IH]; intros w t xs H.
  - apply others_untouched_refl.
  - rewrite run_ops_cons. cbn [snd].
    rewrite (run_op_outcome self o w t xs H).
    destruct (outcome_step self t xs o w H)
      as (t1 & new1 & H1 & (_ & _ & _ & R1) & _).
    eapply others_untouched_trans; [apply outcome_others|].
    rewrite <- R1. by eapply IH.
Qed.

(** ** The constructor (X7, X12) *)

(** X7: [Timer(...)] makes a timer and a list that were not in the store
    before: the new timer has the given name, message, logger and start time
    and no sample, no list that existed is the new timer's list, and every
    timer and list that existed is unchanged. *)
Theorem new_timer_is_fresh nm msg lg st w :
  exists self l w',
    new_timer nm msg lg st w = (Returns self, w') /\
    (timers w !! self = None /\ lists w !! l = None) /\
    holds w' self (mkTimer nm msg lg st l) [] /\
    others_untouched self l w w'.
Proof.
  eexists _, _, _. split; [reflexivity|]. split; [|split].
  - split; apply not_elem_of_dom, is_fresh.
  - split; apply lookup_insert_eq.
  - split; intros k Hk; cbn; by apply lookup_insert_ne.
Qed.


(** ** [times] is a live view (X9) *)

(** X9: the timer never replaces its list: the reference that [times]
    returns is the same before and after every sequence of operations, so a
    caller that took it once sees, through it, every sample recorded
    later: one for each [measure] or [stop] (those inside [restart] and the
    scoped exit included) that found the timer running, whether the call
    then returned or the formatter raised in it. *)
Theorem times_is_a_live_view self w t xs os :
  holds w self t xs ->
  fst (times self w) = Returns (VList (recorded_times t)) /\
  fst (times self (snd (run_ops self os w))) =
    Returns (VList (recorded_times t)) /\
  exists new,
    lists (snd (run_ops self os w)) !! recorded_times t = Some (xs ++ new) /\
    length new = clicks_passed self os w.
Proof.
  intros H. pose proof H as [Ht _].
  destruct (run_ops_invariant self os w t xs H)
    as (t' & new & [Ht' Hxs'] & (_ & _ & _ & R) & C & _).
  unfold times.
  step (read_timer self recorded_times w t Ht).
  step (read_timer self recorded_times _ t' Ht').
  rewrite R. split; [done|]. split; [done|].
  exists new. by rewrite <- R.
Qed.

(** ** After [stop] (X10, X11) *)



(** ** The empty name (X13) *)

(** X13: a timer whose name is the empty string behaves as a timer
    without a name: its errors call it "Unnamed Timer", and a click without
    a pre-message, on a logger that is a true callable and with a template
    that can be formatted, sends the logger the lines of the body only. *)
Theorem empty_name_is_no_name self w t xs t0 sink body m :
  holds w self t xs -> name t = Some "" ->
  start_time t = Some t0 ->
  logger t = Some sink -> sink ∉ falsy_callables w ->
  format (message t) (sample t0 w) = inl body ->
  (exists ts, fst (start self m w) =
              Raises (TimerAlreadyRunningError "Unnamed Timer" ts)) /\
  emitted (snd (stop self MsgNone MsgNone w)) =
    emitted w ++ map (pair sink) (split_newline body).
Proof.
  intros H Hnm Hst Hlg Hs Hb. pose proof H as [Ht _].
  rewrite (start_timer self m w t Ht).
  rewrite (stop_timer_spec self MsgNone MsgNone w t xs H), Hst.
  cbn [fst snd]. split.
  - unfold timer_name_of. rewrite Hnm. by eauto.
  - rewrite (clicked_emitted self t xs t0 true MsgNone MsgNone w sink body
               (click_sink_true t w sink Hlg Hs) Hb).
    cbn [leading_lines trailing_lines]. rewrite Hnm.
    by rewrite app_nil_r.
Qed.

(** ** What the scoped exit logs (X14) *)


End TimerMethods.

(** * The properties on the concrete environment *)

Abbreviation demo_run := (run_ops demo_perf demo_now demo_format 1%positive).

(** [stop] on the stopped demo timer raises, as the guard theorem says. *)
Lemma start_measure_stop_guards_witness :
  holds (demo_world None None) 1%positive (demo_timer None None) [] /\
  ((exists nm ts,
      fst (stop demo_perf demo_now demo_format 1%positive MsgNone MsgNone
             (demo_world None None)) =
      Raises (TimerNotRunningError nm ts ActStop))
   <-> start_time (demo_timer None None) = None).
Proof.
  split; [split; reflexivity|].
  apply (start_measure_stop_guards demo_perf demo_now demo_format 1%positive
           (demo_world None None) (demo_timer None None) []
           MsgNone MsgNone MsgNone).
  split; reflexivity.
Defined.


(** A block that stops the timer itself and leaves by [return]: the exit
    finds the timer stopped and adds nothing to the block's one sample. *)
Example scoped_exit_after_the_block_stopped :
  fst (with_timer demo_perf demo_now demo_format 1%positive
         (block_that_stops demo_perf demo_now demo_format 1%positive)
         (demo_world None None)) = Returns LeavesEarly /\
  samples 1%positive
    (snd (with_timer demo_perf demo_now demo_format 1%positive
            (block_that_stops demo_perf demo_now demo_format 1%positive)
            (demo_world None None))) = Some [1%float].
Proof. split; reflexivity. Qed.


(** Entering the stopped demo timer. *)
Lemma enter_returns_none_witness :
  (holds (demo_world None None) 1%positive (demo_timer None None) [] /\
   start_time (demo_timer None None) = None) /\
  __enter__ demo_perf demo_now 1%positive (demo_world None None) =
  (Returns VNone,
   snd (start demo_perf demo_now 1%positive MsgNone (demo_world None None))).
Proof.
  split; [split; [split|]; reflexivity|].
  apply (enter_returns_none demo_perf demo_now demo_format 1%positive
           (demo_world None None) (demo_timer None None) []);
    [split; reflexivity | reflexivity].
Defined.




(** [stop] on the stopped, unnamed demo timer. *)
Lemma not_running_error_message_witness :
  (holds (demo_world None None) 1%positive (demo_timer None None) [] /\
   start_time (demo_timer None None) = None) /\
  exists e,
    fst (stop demo_perf demo_now demo_format 1%positive MsgNone MsgNone
           (demo_world None None)) = Raises e /\
    error_message e =
    "[2024-05-17T09:30:00] Tried to click `stop` on Unnamed Timer but it wasn't running.".
Proof.
  split; [split; [split|]; reflexivity|].
  destruct (not_running_error_message demo_perf demo_now demo_format
              1%positive (demo_world None None) (demo_timer None None) []
              MsgNone MsgNone) as (e1 & e2 & _ & E2 & _ & -> & _ & M2 & _).
  - split; reflexivity.
  - reflexivity.
  - eexists. split; [exact E2|reflexivity].
Defined.

(** [times] on the demo timer after one session. *)
Lemma times_returns_the_stored_list_witness :
  holds (demo_world None None) 1%positive (demo_timer None None) [] /\
  times 1%positive (demo_world None None) =
  (Returns (VList 1%positive), demo_world None None).
Proof.
  split; [split; reflexivity|].
  apply (times_returns_the_stored_list 1%positive (demo_world None None)
           (demo_timer None None) []).
  split; reflexivity.
Defined.

(** * Where the code differs from the specification's wording *)

(** Against C1 as stated: after one session the demo timer has recorded
    [[1.0]]; the caller takes [times] and clears the list it got, and the
    timer's own [recorded_times] is then empty. *)
Lemma times_is_not_a_copy :
  exists l w1 w2,
    times 1%positive
      (snd (demo_run [OpStart MsgNone; OpStop MsgNone MsgNone]
              (demo_world None None))) = (Returns (VList l), w1) /\
    samples 1%positive w1 = Some [1%float] /\
    list_clear l w1 = (Returns tt, w2) /\
    samples 1%positive w2 = Some [] /\
    samples 1%positive w2 <> samples 1%positive w1.
Proof.
  eexists _, _, _. split; [reflexivity|]. split; [reflexivity|].
  split; [reflexivity|]. split; [reflexivity|]. discriminate.
Qed.

(** Against C2 as stated: [Timer(message="{:d}")], with the default
    logger, is started and stopped. The [stop] raises, the error of the
    formatter, and the timer is not as it was before the call: it was
    running with no sample, and it is left stopped with the sample
    recorded. *)
Lemma stop_raises_after_recording :
  exists self w0 w1 what,
    new_timer None strict_message default_logger None empty_world =
      (Returns self, w0) /\
    start demo_perf demo_now self MsgNone w0 = (Returns (VTimer self), w1) /\
    fst (stop demo_perf demo_now demo_format self MsgNone MsgNone w1) =
      Raises (FormatError what) /\
    running self w1 = true /\
    samples self w1 = Some [] /\
    running self
      (snd (stop demo_perf demo_now demo_format self MsgNone MsgNone w1)) =
      false /\
    samples self
      (snd (stop demo_perf demo_now demo_format self MsgNone MsgNone w1)) =
      Some [1%float] /\
    ~ unchanged self w1
        (snd (stop demo_perf demo_now demo_format self MsgNone MsgNone w1)).
Proof.
  eexists _, _, _, _. split; [reflexivity|]. split; [reflexivity|].
  split; [reflexivity|]. split; [reflexivity|]. split; [reflexivity|].
  split; [reflexivity|]. split; [reflexivity|].
  intros [_ Hs]. vm_compute in Hs. discriminate Hs.
Qed.






(** C8, the code at [stop("")]: with the literal [""] as pre-message the
    line before the body is not that string, though [TimerMessage] is
    documented as "[str] - log that string verbatim" and [log("")] does
    send the empty line. On the demo timer named "t" the click sends "t:",
    and on the unnamed demo timer it sends no leading line at all. *)
Lemma empty_literal_is_not_a_leading_line :
  emitted (snd (demo_run [OpStart MsgNone; OpStop (MsgStr "") MsgNone]
                  (demo_world (Some "t") (Some "rec")))) =
    [("rec", "t:"); ("rec", default_message)] /\
  emitted (snd (demo_run [OpStart MsgNone; OpStop (MsgStr "") MsgNone]
                  (demo_world None (Some "rec")))) =
    [("rec", default_message)] /\
  hd_error
    (emitted (snd (demo_run [OpStart MsgNone; OpStop (MsgStr "") MsgNone]
                     (demo_world (Some "t") (Some "rec"))))) <>
  Some ("rec", "") /\
  emitted (snd (demo_run [OpLog (MsgStr "")]
                  (demo_world (Some "t") (Some "rec")))) = [("rec", "")].
Proof.
  split; [reflexivity|]. split; [reflexivity|]. split; [discriminate|].
  reflexivity.
Qed.

(** Against C9 as stated: the message of the error that [stop] raises on
    the stopped demo timer has the action between backquotes; the text of
    the specification, with single quotes, is another string. *)
Lemma not_running_message_has_backquotes :
  exists e w',
    stop demo_perf demo_now demo_format 1%positive MsgNone MsgNone
      (demo_world None None) = (Raises e, w') /\
    error_message e =
    "[2024-05-17T09:30:00] Tried to click `stop` on Unnamed Timer but it wasn't running." /\
    error_message e <>
    spec_not_running_message "2024-05-17T09:30:00" "stop" "Unnamed Timer".
Proof.
  eexists _, _. split; [reflexivity|]. split; [reflexivity|]. discriminate.
Qed.

(** * The further properties on the concrete environment *)

Lemma already_running_error_message_witness :
  (timers (demo_running_world (Some "t") None) !! 1%positive =
     Some (demo_running_timer (Some "t") None) /\
   start_time (demo_running_timer (Some "t") None) = Some 0%float) /\
  exists e,
    start demo_perf demo_now 1%positive (MsgStr "go")
      (demo_running_world (Some "t") None) =
      (Raises e, tick_wall (demo_running_world (Some "t") None)) /\
    error_message e =
    "[2024-05-17T09:30:00] Tried to start Timer(name=t) but it was already running.".
Proof.
  split; [split; reflexivity|].
  destruct (already_running_error_message demo_perf demo_now 1%positive
              (demo_running_world (Some "t") None)
              (demo_running_timer (Some "t") None) 0%float (MsgStr "go")
              eq_refl eq_refl) as (e & E & -> & _).
  eexists. split; [exact E | reflexivity].
Defined.

Lemma log_sends_lines_witness :
  timers (demo_world None (Some "rec")) !! 1%positive =
    Some (demo_timer None (Some "rec")) /\
  emitted (snd (log demo_now 1%positive (MsgStr "")
                  (demo_world None (Some "rec")))) = [("rec", "")].
Proof.
  split; [reflexivity|].
  destruct (log_sends_lines demo_now 1%positive
              (demo_world None (Some "rec")) (demo_timer None (Some "rec"))
              (MsgStr "") eq_refl) as (_ & _ & E & _).
  rewrite E. reflexivity.
Defined.

Lemma log_lines_join_back_witness :
  (timers (demo_world None (Some "rec")) !! 1%positive =
     Some (demo_timer None (Some "rec")) /\
   logger (demo_timer None (Some "rec")) = Some "rec") /\
  exists sent,
    emitted (snd (log demo_now 1%positive
                    (MsgStr ("lap one" +:+ NL +:+ NL +:+ "done"))
                    (demo_world None (Some "rec")))) =
      emitted (demo_world None (Some "rec")) ++ map (pair "rec") sent /\
    join_newline sent = "lap one" +:+ NL +:+ NL +:+ "done" /\
    length sent = 3.
Proof.
  split; [split; reflexivity|].
  destruct (log_lines_join_back demo_now 1%positive
              (demo_world None (Some "rec")) (demo_timer None (Some "rec"))
              "rec" ("lap one" +:+ NL +:+ NL +:+ "done") eq_refl eq_refl)
    as (sent & E & J & _ & L).
  exists sent. split; [exact E|]. split; [exact J | exact L].
Defined.

Lemma start_stores_reading_and_logs_witness :
  (holds (demo_world None (Some "rec")) 1%positive
     (demo_timer None (Some "rec")) [] /\
   start_time (demo_timer None (Some "rec")) = None) /\
  exists w',
    start demo_perf demo_now 1%positive (MsgDefault START)
      (demo_world None (Some "rec")) = (Returns (VTimer 1%positive), w') /\
    emitted w' = [("rec", "START: 2024-05-17T09:30:00")].
Proof.
  split; [split; [split|]; reflexivity|].
  destruct (start_stores_reading_and_logs demo_perf demo_now 1%positive
              (demo_world None (Some "rec")) (demo_timer None (Some "rec"))
              [] (MsgDefault START)) as (w' & E & _ & _ & L).
  - split; reflexivity.
  - reflexivity.
  - exists w'. split; [exact E|]. rewrite L. reflexivity.
Defined.


Lemma other_objects_untouched_witness :
  holds demo_two_timers 1%positive (demo_timer None (Some "rec")) [] /\
  timers (snd (demo_run [OpStart (MsgStr "go"); OpMeasure MsgNone MsgNone;
                         OpRestart MsgNone MsgNone; OpExit None]
                 demo_two_timers)) !! 2%positive =
    timers demo_two_timers !! 2%positive /\
  lists (snd (demo_run [OpStart (MsgStr "go"); OpMeasure MsgNone MsgNone;
                        OpRestart MsgNone MsgNone; OpExit None]
                demo_two_timers)) !! 2%positive =
    lists demo_two_timers !! 2%positive.
Proof.
  split; [split; reflexivity|].
  destruct (other_objects_untouched demo_perf demo_now demo_format
              1%positive demo_two_timers (demo_timer None (Some "rec")) []
              [OpStart (MsgStr "go"); OpMeasure MsgNone MsgNone;
               OpRestart MsgNone MsgNone; OpExit None]) as [T L].
  - split; reflexivity.
  - split; [apply T | apply L]; discriminate.
Defined.

Lemma with_on_a_running_timer_witness :
  (holds (demo_running_world None None) 1%positive
     (demo_running_timer None None) [] /\
   start_time (demo_running_timer None None) = Some 0%float) /\
  running 1%positive
    (snd (with_timer demo_perf demo_now demo_format 1%positive
            (block_that_stops demo_perf demo_now demo_format 1%positive)
            (demo_running_world None None))) = true.
Proof.
  split; [split; [split|]; reflexivity|].
  destruct (with_on_a_running_timer demo_perf demo_now demo_format
              1%positive (demo_running_world None None)
              (demo_running_timer None None) [] 0%float
              (block_that_stops demo_perf demo_now demo_format 1%positive))
    as (E & _ & R).
  - split; reflexivity.
  - reflexivity.
  - rewrite E. exact R.
Defined.

(** The list of the running demo timer whose template the formatter
    rejects, after a [measure] and a [stop] that both raise: two samples,
    seen through the reference [times] gave. *)
Lemma times_is_a_live_view_witness :
  holds (demo_strict_world (Some "rec")) 1%positive
    (demo_strict_timer (Some "rec")) [] /\
  fst (times 1%positive
         (snd (demo_run [OpMeasure MsgNone MsgNone; OpStop MsgNone MsgNone]
                 (demo_strict_world (Some "rec"))))) =
    Returns (VList (recorded_times (demo_strict_timer (Some "rec")))) /\
  exists new,
    lists (snd (demo_run [OpMeasure MsgNone MsgNone; OpStop MsgNone MsgNone]
                  (demo_strict_world (Some "rec"))))
      !! recorded_times (demo_strict_timer (Some "rec")) = Some ([] ++ new) /\
    length new = 2.
Proof.
  split; [split; reflexivity|].
  destruct (times_is_a_live_view demo_perf demo_now demo_format 1%positive
              (demo_strict_world (Some "rec"))
              (demo_strict_timer (Some "rec")) []
              [OpMeasure MsgNone MsgNone; OpStop MsgNone MsgNone])
    as (_ & T & new & S & L); [split; reflexivity|].
  split; [exact T|]. exists new. split; [exact S|]. rewrite L. reflexivity.
Defined.



Lemma empty_name_is_no_name_witness :
  (holds (demo_running_world (Some "") (Some "rec")) 1%positive
     (demo_running_timer (Some "") (Some "rec")) [] /\
   name (demo_running_timer (Some "") (Some "rec")) = Some "" /\
   start_time (demo_running_timer (Some "") (Some "rec")) = Some 0%float /\
   logger (demo_running_timer (Some "") (Some "rec")) = Some "rec" /\
   ("rec" ∉ falsy_callables (demo_running_world (Some "") (Some "rec"))) /\
   demo_format (message (demo_running_timer (Some "") (Some "rec")))
     (sample demo_perf 0%float (demo_running_world (Some "") (Some "rec"))) =
     inl default_message) /\
  emitted (snd (stop demo_perf demo_now demo_format 1%positive
                  MsgNone MsgNone
                  (demo_running_world (Some "") (Some "rec")))) =
  [("rec", default_message)].
Proof.
  assert (Hs : "rec" ∉
                 falsy_callables (demo_running_world (Some "") (Some "rec")))
    by (by vm_compute).
  split;
    [split; [split|split; [|split; [|split; [|split]]]];
     first [reflexivity | exact Hs]|].
  destruct (empty_name_is_no_name demo_perf demo_now demo_format 1%positive
              (demo_running_world (Some "") (Some "rec"))
              (demo_running_timer (Some "") (Some "rec")) [] 0%float "rec"
              default_message MsgNone) as [_ E].
  - split; reflexivity.
  - reflexivity.
  - reflexivity.
  - reflexivity.
  - exact Hs.
  - reflexivity.
  - rewrite E. reflexivity.
Defined.


